(** * Scheduler boost coordinator (kernel/sched/boost.c)

    A shallow embedding of the refcounted boost state machine of
    [kernel/sched/boost.c] and the properties its specification states.

    The C translation unit keeps its state in file-scope variables and calls
    four downstream hooks.  The embedding threads the variables explicitly
    (record [globals]) and records every hook call, in program order, in a
    log: a computation of the unit is a function
    [globals -> result * globals * list call] (the monad [kern]).

    [boost_mutex] serialises every entry point, so each entry point runs to
    completion before the next starts; the embedding is the sequential
    semantics under that lock and the lock itself is not represented. *)

From Stdlib Require Import ZArith List Lia Bool.
From Stdlib Require String.
Import String.StringSyntax.
#[local] Delimit Scope string_scope with string.
Import ListNotations.
Local Open Scope Z_scope.

(** ** C integers *)

Module CInt.

Definition INT_MAX : Z := 2147483647.
Definition INT_MIN : Z := -2147483648.

(** Value of a mathematical integer stored in an [int]: two's complement
    wrap-around on 32 bits (the kernel is built with
    [-fno-strict-overflow], so [x++] on an [int] wraps). *)
Definition to_int (z : Z) : Z := (z + 2147483648) mod 4294967296 - 2147483648.

(** Value of a mathematical integer stored in an [unsigned int]. *)
Definition to_uint (z : Z) : Z := z mod 4294967296.

Definition in_int (z : Z) : Prop := INT_MIN <= z <= INT_MAX.

End CInt.
Import CInt.

(** ** Constants of sched.h *)

(** Modelled from the spec: [sched.h] is not part of the sources at hand.
    It supplies the seven request codes, the array bound and the policy
    enumeration.  The spec fixes their shape: four kinds ([None],
    [FullThrottle], [Conservative], [Restrained]) that index the refcount
    table, three disable codes, one per kind other than [None], and the
    seven codes are exactly the closed range that [verify_boost_params]
    accepts, from [RESTRAINED_BOOST_DISABLE] up to [RESTRAINED_BOOST]. *)
Definition NO_BOOST : Z := 0.
Definition FULL_THROTTLE_BOOST : Z := 1.
Definition CONSERVATIVE_BOOST : Z := 2.
Definition RESTRAINED_BOOST : Z := 3.
Definition FULL_THROTTLE_BOOST_DISABLE : Z := -1.
Definition CONSERVATIVE_BOOST_DISABLE : Z := -2.
Definition RESTRAINED_BOOST_DISABLE : Z := -3.
Definition MAX_NUM_BOOST_TYPE : Z := RESTRAINED_BOOST + 1.

Definition EINVAL : Z := 22.

(** Modelled from the spec: [enum sched_boost_policy] of [sched.h], the
    closed set [None], [OnBig], [OnAll].  [SCHED_BOOST_NONE] is the zero of
    the enumeration: it is the value [boost_policy_dt] is initialised with
    and the one [if (boost_policy_dt)] takes as "unset". *)
Inductive sched_boost_policy : Set :=
| SCHED_BOOST_NONE
| SCHED_BOOST_ON_BIG
| SCHED_BOOST_ON_ALL.

(** [if (p)] on a policy. *)
Definition policy_is_set (p : sched_boost_policy) : bool :=
  match p with
  | SCHED_BOOST_NONE => false
  | _ => true
  end.

(** ** State *)

(** [static int boost_refcount[MAX_NUM_BOOST_TYPE]]: four [int] slots, read
    and written by index.  The code only ever uses the constant indices
    [FULL_THROTTLE_BOOST], [CONSERVATIVE_BOOST] and [RESTRAINED_BOOST]. *)
Record refcount_array : Set := mk_refcount {
  slot0 : Z;
  slot1 : Z;
  slot2 : Z;
  slot3 : Z
}.

Definition get (a : refcount_array) (i : Z) : Z :=
  match i with
  | 0 => slot0 a
  | 1 => slot1 a
  | 2 => slot2 a
  | 3 => slot3 a
  | _ => 0
  end.

Definition set (a : refcount_array) (i : Z) (v : Z) : refcount_array :=
  match i with
  | 0 => mk_refcount v (slot1 a) (slot2 a) (slot3 a)
  | 1 => mk_refcount (slot0 a) v (slot2 a) (slot3 a)
  | 2 => mk_refcount (slot0 a) (slot1 a) v (slot3 a)
  | 3 => mk_refcount (slot0 a) (slot1 a) (slot2 a) v
  | _ => a
  end.

(** The file-scope variables of boost.c, and the two variables of the load
    tracker that [set_boost_policy] reads. *)
Record globals : Set := mk_globals {
  sysctl_sched_boost : Z;                 (* unsigned int, to/from userspace *)
  sched_boost_type : Z;                   (* unsigned int, activated boost *)
  boost_policy : sched_boost_policy;
  boost_policy_dt : sched_boost_policy;
  boost_refcount : refcount_array;
  min_possible_efficiency : Z;
  max_possible_efficiency : Z
}.

(** The calls the unit makes into the rest of the kernel. *)
Inductive call : Set :=
| core_ctl_set_boost (boost : bool)
| walt_enable_frequency_aggregation (enable : bool)
| update_cgroup_boost_settings
| restore_cgroup_boost_settings
| trace_sched_set_boost (type : Z)
| WARN_ON.

(** The four downstream hooks, as opposed to tracing and warnings. *)
Definition is_hook (c : call) : bool :=
  match c with
  | trace_sched_set_boost _ | WARN_ON => false
  | _ => true
  end.

(** ** The monad of the unit: state and call log *)

Definition kern (A : Type) : Type := globals -> A * globals * list call.

Definition ret {A} (a : A) : kern A := fun g => (a, g, []).

Definition bind {A B} (m : kern A) (f : A -> kern B) : kern B :=
  fun g =>
    let '(a, g1, l1) := m g in
    let '(b, g2, l2) := f a g1 in
    (b, g2, l1 ++ l2).

Notation "x <- m ;; k" := (bind m (fun x => k))
  (at level 61, m at next level, right associativity).
Notation "m ;; k" := (bind m (fun _ => k))
  (at level 61, right associativity).

Definition read {A} (f : globals -> A) : kern A := fun g => (f g, g, []).
Definition write (f : globals -> globals) : kern unit := fun g => (tt, f g, []).
Definition fire (c : call) : kern unit := fun g => (tt, g, [c]).
Definition when (b : bool) (m : kern unit) : kern unit := if b then m else ret tt.

Definition result {A} (m : kern A) (g : globals) : A := fst (fst (m g)).
Definition exec {A} (m : kern A) (g : globals) : globals := snd (fst (m g)).
Definition calls {A} (m : kern A) (g : globals) : list call := snd (m g).
Definition hooks {A} (m : kern A) (g : globals) : list call :=
  filter is_hook (calls m g).

(** Accessors for the variables. *)
Definition refcount (i : Z) : kern Z := read (fun g => get (boost_refcount g) i).

Definition with_refcount (a : refcount_array) (g : globals) : globals :=
  mk_globals (sysctl_sched_boost g) (sched_boost_type g) (boost_policy g)
    (boost_policy_dt g) a
    (min_possible_efficiency g) (max_possible_efficiency g).

Definition set_refcount (i : Z) (v : Z) : kern unit :=
  write (fun g => with_refcount (set (boost_refcount g) i v) g).

(** [boost_refcount[i]++] and [boost_refcount[i]--] on an [int] slot. *)
Definition incr_refcount (i : Z) : kern unit :=
  rc <- refcount i ;; set_refcount i (to_int (rc + 1)).
Definition decr_refcount (i : Z) : kern unit :=
  rc <- refcount i ;; set_refcount i (to_int (rc - 1)).

Definition set_boost_policy_var (p : sched_boost_policy) : kern unit :=
  write (fun g =>
    mk_globals (sysctl_sched_boost g) (sched_boost_type g) p
      (boost_policy_dt g) (boost_refcount g)
      (min_possible_efficiency g) (max_possible_efficiency g)).

Definition set_boost_policy_dt (p : sched_boost_policy) : kern unit :=
  write (fun g =>
    mk_globals (sysctl_sched_boost g) (sched_boost_type g) (boost_policy g)
      p (boost_refcount g)
      (min_possible_efficiency g) (max_possible_efficiency g)).

Definition set_sched_boost_type (v : Z) : kern unit :=
  write (fun g =>
    mk_globals (sysctl_sched_boost g) (to_uint v) (boost_policy g)
      (boost_policy_dt g) (boost_refcount g)
      (min_possible_efficiency g) (max_possible_efficiency g)).

Definition set_sysctl_sched_boost (v : Z) : kern unit :=
  write (fun g =>
    mk_globals (to_uint v) (sched_boost_type g) (boost_policy g)
      (boost_policy_dt g) (boost_refcount g)
      (min_possible_efficiency g) (max_possible_efficiency g)).

(** ** The functions of boost.c *)

Definition set_boost_policy (type : Z) : kern unit :=
  if (type =? NO_BOOST) || (type =? RESTRAINED_BOOST) then
    set_boost_policy_var SCHED_BOOST_NONE
  else
    dt <- read boost_policy_dt ;;
    if policy_is_set dt then
      set_boost_policy_var dt
    else
      mn <- read min_possible_efficiency ;;
      mx <- read max_possible_efficiency ;;
      if negb (mn =? mx) then
        set_boost_policy_var SCHED_BOOST_ON_BIG
      else
        set_boost_policy_var SCHED_BOOST_ON_ALL.

Definition verify_boost_params (type : Z) : bool :=
  (RESTRAINED_BOOST_DISABLE <=? type) && (type <=? RESTRAINED_BOOST).

(** The [switch] of [_sched_set_boost].  The result tells whether control
    reaches the code after the switch ([true]) or left the function through
    the [default] branch ([false]). *)
Definition boost_switch (type : Z) : kern bool :=
  if type =? NO_BOOST then
    (* All boost clear *)
    ft <- refcount FULL_THROTTLE_BOOST ;;
    when (0 <? ft)
      (fire (core_ctl_set_boost false) ;;
       fire (walt_enable_frequency_aggregation false) ;;
       set_refcount FULL_THROTTLE_BOOST 0) ;;
    cb <- refcount CONSERVATIVE_BOOST ;;
    when (0 <? cb)
      (fire restore_cgroup_boost_settings ;;
       set_refcount CONSERVATIVE_BOOST 0) ;;
    rb <- refcount RESTRAINED_BOOST ;;
    when (0 <? rb)
      (fire (walt_enable_frequency_aggregation false) ;;
       set_refcount RESTRAINED_BOOST 0) ;;
    ret true
  else if type =? FULL_THROTTLE_BOOST then
    incr_refcount FULL_THROTTLE_BOOST ;;
    ft <- refcount FULL_THROTTLE_BOOST ;;
    when (ft =? 1)
      (fire (core_ctl_set_boost true) ;;
       fire restore_cgroup_boost_settings ;;
       rb <- refcount RESTRAINED_BOOST ;;
       when (rb =? 0) (fire (walt_enable_frequency_aggregation true))) ;;
    ret true
  else if type =? CONSERVATIVE_BOOST then
    incr_refcount CONSERVATIVE_BOOST ;;
    cb <- refcount CONSERVATIVE_BOOST ;;
    ft <- refcount FULL_THROTTLE_BOOST ;;
    when ((cb =? 1) && (ft =? 0)) (fire update_cgroup_boost_settings) ;;
    ret true
  else if type =? RESTRAINED_BOOST then
    incr_refcount RESTRAINED_BOOST ;;
    rb <- refcount RESTRAINED_BOOST ;;
    ft <- refcount FULL_THROTTLE_BOOST ;;
    when ((rb =? 1) && (ft =? 0))
      (fire (walt_enable_frequency_aggregation true)) ;;
    ret true
  else if type =? FULL_THROTTLE_BOOST_DISABLE then
    ft <- refcount FULL_THROTTLE_BOOST ;;
    when (1 <=? ft)
      (decr_refcount FULL_THROTTLE_BOOST ;;
       ft' <- refcount FULL_THROTTLE_BOOST ;;
       when (ft' =? 0)
         (fire (core_ctl_set_boost false) ;;
          cb <- refcount CONSERVATIVE_BOOST ;;
          when (1 <=? cb) (fire update_cgroup_boost_settings) ;;
          rb <- refcount RESTRAINED_BOOST ;;
          when (rb =? 0) (fire (walt_enable_frequency_aggregation false)))) ;;
    ret true
  else if type =? CONSERVATIVE_BOOST_DISABLE then
    cb <- refcount CONSERVATIVE_BOOST ;;
    when (1 <=? cb)
      (decr_refcount CONSERVATIVE_BOOST ;;
       cb' <- refcount CONSERVATIVE_BOOST ;;
       when (cb' =? 0) (fire restore_cgroup_boost_settings)) ;;
    ret true
  else if type =? RESTRAINED_BOOST_DISABLE then
    rb <- refcount RESTRAINED_BOOST ;;
    when (1 <=? rb)
      (decr_refcount RESTRAINED_BOOST ;;
       rb' <- refcount RESTRAINED_BOOST ;;
       ft <- refcount FULL_THROTTLE_BOOST ;;
       when ((rb' =? 0) && (ft =? 0))
         (fire (walt_enable_frequency_aggregation false))) ;;
    ret true
  else
    fire WARN_ON ;;
    ret false.

(** "Aggregate final boost type": the value assigned to the local [type]. *)
Definition aggregate_boost_type : kern Z :=
  ft <- refcount FULL_THROTTLE_BOOST ;;
  cb <- refcount CONSERVATIVE_BOOST ;;
  rb <- refcount RESTRAINED_BOOST ;;
  ret (if 1 <=? ft then FULL_THROTTLE_BOOST
       else if 1 <=? cb then CONSERVATIVE_BOOST
       else if 1 <=? rb then RESTRAINED_BOOST
       else NO_BOOST).

Definition _sched_set_boost (type : Z) : kern unit :=
  reached <- boost_switch type ;;
  if reached : bool then
    type' <- aggregate_boost_type ;;
    set_sched_boost_type type' ;;
    set_sysctl_sched_boost type' ;;
    set_boost_policy type' ;;
    fire (trace_sched_set_boost type')
  else
    ret tt.

(** [sched_boost_parse_dt].  The device tree is seen through the two
    lookups the function makes: [sn] is [None] when there is no
    ["/sched-hmp"] node, and otherwise holds the string of its
    ["boost-policy"] property, if it has one. *)
Definition sched_boost_parse_dt (sn : option (option String.string)) : kern unit :=
  match sn with
  | None => ret tt
  | Some None => ret tt
  | Some (Some policy) =>
      if String.eqb policy "boost-on-big"%string then
        set_boost_policy_dt SCHED_BOOST_ON_BIG
      else if String.eqb policy "boost-on-all"%string then
        set_boost_policy_dt SCHED_BOOST_ON_ALL
      else ret tt
  end.

Definition sched_set_boost (type : Z) : kern Z :=
  if verify_boost_params type then
    _sched_set_boost type ;; ret 0
  else
    ret (- EINVAL).

(** The sysctl table entry passed to the handler.  Its [data] pointer is
    [&sysctl_sched_boost] (the variable "to/from userspace"); [extra1] and
    [extra2] are the bounds the generic integer handler enforces. *)
Record ctl_table : Set := mk_ctl_table {
  extra1 : Z;
  extra2 : Z
}.

(** Modelled from the spec: [proc_dointvec_minmax] belongs to the generic
    sysctl code, not to this unit.  It is the "generic bounded-integer"
    mechanism: a read copies the stored integer to the user buffer; a write
    parses an integer from the user buffer, rejects it with [-EINVAL] when
    it is outside the table's bounds and stores it otherwise.  The user
    buffer is represented by the integer it holds; the result is the
    return value paired with the buffer contents afterwards. *)
Definition proc_dointvec_minmax (table : ctl_table) (write : bool)
    (buffer : Z) : kern (Z * Z) :=
  if write then
    if (extra1 table <=? buffer) && (buffer <=? extra2 table) then
      set_sysctl_sched_boost buffer ;; ret (0, buffer)
    else
      ret (- EINVAL, buffer)
  else
    v <- read sysctl_sched_boost ;; ret (0, to_int v).

Definition sched_boost_handler (table : ctl_table) (write : bool)
    (buffer : Z) : kern (Z * Z) :=
  r <- proc_dointvec_minmax table write buffer ;;
  if negb (fst r =? 0) || negb write then
    ret r
  else
    data <- read sysctl_sched_boost ;;
    if verify_boost_params (to_int data) then
      _sched_set_boost (to_int data) ;; ret r
    else
      ret (- EINVAL, snd r).

(** ** Running the unit *)

(** The variables as the loader leaves them: everything zero-initialised;
    the two capacity bounds come from the load tracker. *)
Definition init_globals (min_eff max_eff : Z) : globals :=
  mk_globals 0 0 SCHED_BOOST_NONE SCHED_BOOST_NONE
    (mk_refcount 0 0 0 0) min_eff max_eff.

(** The state once boot has parsed the device tree. *)
Definition boot (sn : option (option String.string)) (min_eff max_eff : Z) : globals :=
  exec (sched_boost_parse_dt sn) (init_globals min_eff max_eff).

(** A sequence of [sched_set_boost] requests, one after the other. *)
Fixpoint run (reqs : list Z) (g : globals) : globals :=
  match reqs with
  | [] => g
  | type :: reqs' => run reqs' (exec (sched_set_boost type) g)
  end.

(** The hooks fired by each request of a sequence, request by request. *)
Fixpoint run_hooks (reqs : list Z) (g : globals) : list (list call) :=
  match reqs with
  | [] => []
  | type :: reqs' =>
      hooks (sched_set_boost type) g
        :: run_hooks reqs' (exec (sched_set_boost type) g)
  end.

(** ** The rules in the words of the specification *)

(** The seven legal request codes. *)
Definition legal_requests : list Z :=
  [NO_BOOST; FULL_THROTTLE_BOOST; CONSERVATIVE_BOOST; RESTRAINED_BOOST;
   FULL_THROTTLE_BOOST_DISABLE; CONSERVATIVE_BOOST_DISABLE;
   RESTRAINED_BOOST_DISABLE].

(** A request the entry points accept. *)
Definition legal (type : Z) : Prop := verify_boost_params type = true.

(** [aggregate(table)]: the first kind, in the order [FullThrottle],
    [Conservative], [Restrained], whose refcount is positive, else [None]. *)
Definition aggregate (table : refcount_array) : Z :=
  if 0 <? get table FULL_THROTTLE_BOOST then FULL_THROTTLE_BOOST
  else if 0 <? get table CONSERVATIVE_BOOST then CONSERVATIVE_BOOST
  else if 0 <? get table RESTRAINED_BOOST then RESTRAINED_BOOST
  else NO_BOOST.

(** [derive_policy(active_kind, override, heterogeneous)]: the four-case
    rule of the data model. *)
Definition derive_policy (active_kind : Z) (override : option sched_boost_policy)
    (heterogeneous : bool) : sched_boost_policy :=
  if (active_kind =? NO_BOOST) || (active_kind =? RESTRAINED_BOOST) then
    SCHED_BOOST_NONE
  else
    match override with
    | Some p => p
    | None => if heterogeneous then SCHED_BOOST_ON_BIG else SCHED_BOOST_ON_ALL
    end.

(** The boot-time override: set when the device tree named a policy. *)
Definition override (g : globals) : option sched_boost_policy :=
  match boost_policy_dt g with
  | SCHED_BOOST_NONE => None
  | p => Some p
  end.

(** The processor set is heterogeneous when the minimum and the maximum
    per-CPU capacity differ. *)
Definition heterogeneous (g : globals) : bool :=
  negb (min_possible_efficiency g =? max_possible_efficiency g).

(** The three kinds that carry a refcount, and the request that withdraws
    one enable of a kind. *)
Definition kinds : list Z :=
  [FULL_THROTTLE_BOOST; CONSERVATIVE_BOOST; RESTRAINED_BOOST].

Definition matching_disable (kind : Z) : Z :=
  if kind =? FULL_THROTTLE_BOOST then FULL_THROTTLE_BOOST_DISABLE
  else if kind =? CONSERVATIVE_BOOST then CONSERVATIVE_BOOST_DISABLE
  else RESTRAINED_BOOST_DISABLE.


(** The request is an enable of one of the three kinds. *)
Definition is_enable (type : Z) : bool :=
  (type =? FULL_THROTTLE_BOOST) || (type =? CONSERVATIVE_BOOST)
  || (type =? RESTRAINED_BOOST).

(** No request of the sequence, run from [g], is an enable issued while
    the refcount of its kind is [INT_MAX]. *)
Fixpoint enables_below_max (reqs : list Z) (g : globals) : bool :=
  match reqs with
  | [] => true
  | type :: reqs' =>
      (negb (is_enable type)
       || negb (get (boost_refcount g) type =? INT_MAX))
      && enables_below_max reqs' (exec (sched_set_boost type) g)
  end.


(** What the clear-all branch makes of a slot: a positive count is reset,
    anything else is left alone. *)
Definition cleared (count : Z) : Z := if 0 <? count then 0 else count.

(** No slot of the table is negative. *)
Definition nonnegative (table : refcount_array) : Prop :=
  0 <= get table FULL_THROTTLE_BOOST /\
  0 <= get table CONSERVATIVE_BOOST /\
  0 <= get table RESTRAINED_BOOST.

(** Every slot of the table lies between 0 and [n]. *)
Definition bounded (n : Z) (table : refcount_array) : Prop :=
  0 <= get table FULL_THROTTLE_BOOST <= n /\
  0 <= get table CONSERVATIVE_BOOST <= n /\
  0 <= get table RESTRAINED_BOOST <= n.

(** The published state agrees with the refcount table. *)
Definition published (g : globals) : Prop :=
  sched_boost_type g = aggregate (boost_refcount g) /\
  sysctl_sched_boost g = aggregate (boost_refcount g) /\
  boost_policy g =
    derive_policy (aggregate (boost_refcount g)) (override g) (heterogeneous g).

(** The state the code after the [switch] leaves: the aggregate kind stored
    in both [sched_boost_type] and [sysctl_sched_boost], and the policy
    derived from it. *)
Definition publish (g : globals) : globals :=
  let type := aggregate (boost_refcount g) in
  mk_globals (to_uint type) (to_uint type)
    (derive_policy type (override g) (heterogeneous g))
    (boost_policy_dt g) (boost_refcount g)
    (min_possible_efficiency g) (max_possible_efficiency g).

(** The hooks the clear-all request would fire if it replayed, kind by
    kind, the side effects of the last matching disable (items 5 to 7 of the
    transition algorithm). *)
Definition full_disable_replayed (table : refcount_array) : list call :=
  (if 0 <? get table FULL_THROTTLE_BOOST then
     [core_ctl_set_boost false]
     ++ (if 1 <=? get table CONSERVATIVE_BOOST
         then [update_cgroup_boost_settings] else [])
     ++ (if get table RESTRAINED_BOOST =? 0
         then [walt_enable_frequency_aggregation false] else [])
   else [])
  ++ (if 0 <? get table CONSERVATIVE_BOOST
      then [restore_cgroup_boost_settings] else [])
  ++ (if 0 <? get table RESTRAINED_BOOST then
        if get table FULL_THROTTLE_BOOST =? 0
        then [walt_enable_frequency_aggregation false] else []
      else []).

(** The hooks the clear-all branch of the code fires. *)
Definition clear_all_hooks (table : refcount_array) : list call :=
  (if 0 <? get table FULL_THROTTLE_BOOST
   then [core_ctl_set_boost false; walt_enable_frequency_aggregation false]
   else [])
  ++ (if 0 <? get table CONSERVATIVE_BOOST
      then [restore_cgroup_boost_settings] else [])
  ++ (if 0 <? get table RESTRAINED_BOOST
      then [walt_enable_frequency_aggregation false] else []).

(** ** Observing the calls *)

(** Every call of a sequence of requests, in program order. *)
Fixpoint run_calls (reqs : list Z) (g : globals) : list call :=
  match reqs with
  | [] => []
  | type :: reqs' =>
      calls (sched_set_boost type) g
        ++ run_calls reqs' (exec (sched_set_boost type) g)
  end.

(** What the three downstream subsystems were last told: the argument of
    the last [core_ctl_set_boost] call, the argument of the last
    [walt_enable_frequency_aggregation] call, and whether the last cgroup
    call was [update_cgroup_boost_settings] rather than
    [restore_cgroup_boost_settings]. *)
Record downstream : Set := mk_downstream {
  core_ctl_boost : bool;
  frequency_aggregation : bool;
  cgroup_boost_updated : bool
}.

Definition deliver (d : downstream) (c : call) : downstream :=
  match c with
  | core_ctl_set_boost b =>
      mk_downstream b (frequency_aggregation d) (cgroup_boost_updated d)
  | walt_enable_frequency_aggregation b =>
      mk_downstream (core_ctl_boost d) b (cgroup_boost_updated d)
  | update_cgroup_boost_settings =>
      mk_downstream (core_ctl_boost d) (frequency_aggregation d) true
  | restore_cgroup_boost_settings =>
      mk_downstream (core_ctl_boost d) (frequency_aggregation d) false
  | trace_sched_set_boost _ | WARN_ON => d
  end.

Definition deliver_all (l : list call) (d : downstream) : downstream :=
  fold_left deliver l d.

(** The downstream state a refcount table calls for: core-control boost
    while FullThrottle is held, frequency aggregation while FullThrottle or
    Restrained is held, updated cgroup settings while Conservative is held
    and FullThrottle is not. *)
Definition mirror (table : refcount_array) : downstream :=
  mk_downstream
    (0 <? get table FULL_THROTTLE_BOOST)
    ((0 <? get table FULL_THROTTLE_BOOST) || (0 <? get table RESTRAINED_BOOST))
    ((0 <? get table CONSERVATIVE_BOOST)
     && negb (0 <? get table FULL_THROTTLE_BOOST)).

(** Every slot of the table holds an [int]. *)
Definition int_table (table : refcount_array) : Prop :=
  in_int (get table FULL_THROTTLE_BOOST) /\
  in_int (get table CONSERVATIVE_BOOST) /\
  in_int (get table RESTRAINED_BOOST).

(** The policy a boot configuration settles on for the kinds that have one:
    the device tree's choice when it names one of the two policies, and the
    capacity rule otherwise. *)
Definition boot_policy (sn : option (option String.string))
    (min_eff max_eff : Z) : sched_boost_policy :=
  match sn with
  | Some (Some policy) =>
      if String.eqb policy "boost-on-big"%string then SCHED_BOOST_ON_BIG
      else if String.eqb policy "boost-on-all"%string then SCHED_BOOST_ON_ALL
      else if min_eff =? max_eff then SCHED_BOOST_ON_ALL else SCHED_BOOST_ON_BIG
  | _ => if min_eff =? max_eff then SCHED_BOOST_ON_ALL else SCHED_BOOST_ON_BIG
  end.

(** ** Arithmetic of the C integer conversions *)

Lemma to_int_small (z : Z) : in_int z -> to_int z = z.
Proof.
  unfold in_int, INT_MIN, INT_MAX, to_int. intros H.
  rewrite Z.mod_small; lia.
Qed.

Lemma to_int_overflow : to_int (INT_MAX + 1) = INT_MIN.
Proof. reflexivity. Qed.

Lemma to_int_range (z : Z) : in_int (to_int z).
Proof.
  unfold in_int, INT_MIN, INT_MAX, to_int.
  pose proof (Z.mod_pos_bound (z + 2147483648) 4294967296 eq_refl). lia.
Qed.

Lemma to_uint_small (z : Z) : 0 <= z < 4294967296 -> to_uint z = z.
Proof. intros H. unfold to_uint. apply Z.mod_small; lia. Qed.

#[global] Arguments to_int : simpl never.
#[global] Arguments to_uint : simpl never.

(** ** Symbolic execution of the monad *)

Ltac kern_unfold :=
  cbv [result exec calls hooks sched_set_boost _sched_set_boost boost_switch
       aggregate_boost_type set_boost_policy bind ret read write fire when
       refcount set_refcount incr_refcount decr_refcount with_refcount
       set_boost_policy_var set_sched_boost_type set_sysctl_sched_boost
       NO_BOOST FULL_THROTTLE_BOOST CONSERVATIVE_BOOST RESTRAINED_BOOST
       FULL_THROTTLE_BOOST_DISABLE CONSERVATIVE_BOOST_DISABLE
       RESTRAINED_BOOST_DISABLE].

(** Split on the first test whose outcome the goal is waiting for. *)
Ltac case_test c :=
  lazymatch c with
  | andb ?a _ => case_test a
  | orb ?a _ => case_test a
  | negb ?a => case_test a
  | Z.eqb ?a ?b => destruct (Z.eqb_spec a b)
  | Z.leb ?a ?b => destruct (Z.leb_spec a b)
  | Z.ltb ?a ?b => destruct (Z.ltb_spec a b)
  | policy_is_set ?d => destruct d
  | _ => destruct c eqn:?
  end.

Ltac case_if :=
  match goal with
  | |- context [if ?c then _ else _] => case_test c; cbn
  end.

Ltac kern_cases := kern_unfold; cbn; repeat case_if.

(** ** Basic facts about one request *)

Lemma legal_cases (type : Z) :
  legal type ->
  type = -3 \/ type = -2 \/ type = -1 \/ type = 0 \/
  type = 1 \/ type = 2 \/ type = 3.
Proof.
  unfold legal, verify_boost_params, RESTRAINED_BOOST_DISABLE, RESTRAINED_BOOST.
  intros H. apply andb_true_iff in H as [H1 H2]. lia.
Qed.

Lemma legal_iff_listed (type : Z) : legal type <-> In type legal_requests.
Proof.
  split.
  - intros H. apply legal_cases in H. cbv [legal_requests In NO_BOOST
      FULL_THROTTLE_BOOST CONSERVATIVE_BOOST RESTRAINED_BOOST
      FULL_THROTTLE_BOOST_DISABLE CONSERVATIVE_BOOST_DISABLE
      RESTRAINED_BOOST_DISABLE]. lia.
  - cbn. intros H.
    repeat (destruct H as [H | H]; [subst type; reflexivity | ]). destruct H.
Qed.

Ltac each_legal H :=
  apply legal_cases in H;
  repeat (destruct H as [H | H]; [subst | ]); [ .. | subst ].

Lemma aggregate_range (table : refcount_array) : 0 <= aggregate table <= 3.
Proof. unfold aggregate. kern_unfold. repeat case_if; lia. Qed.

Lemma to_uint_aggregate (table : refcount_array) :
  to_uint (aggregate table) = aggregate table.
Proof. apply to_uint_small. pose proof (aggregate_range table). lia. Qed.

(** The aggregation block computes [aggregate]: on an [int], [>= 1] and
    [> 0] are the same test. *)
Lemma aggregate_boost_type_run (g : globals) :
  aggregate_boost_type g = (aggregate (boost_refcount g), g, []).
Proof.
  destruct g as [sb st bp dt [r0 r1 r2 r3] mn mx].
  unfold aggregate. kern_cases; try reflexivity; lia.
Qed.

(** [set_boost_policy] stores the policy of the four-case rule and touches
    nothing else. *)
Lemma set_boost_policy_run (type : Z) (g : globals) :
  set_boost_policy type g =
  (tt,
   mk_globals (sysctl_sched_boost g) (sched_boost_type g)
     (derive_policy type (override g) (heterogeneous g))
     (boost_policy_dt g) (boost_refcount g)
     (min_possible_efficiency g) (max_possible_efficiency g),
   []).
Proof.
  destruct g as [sb st bp dt rc mn mx].
  unfold derive_policy, override, heterogeneous.
  kern_cases; try reflexivity; try lia; destruct dt; reflexivity.
Qed.

(** The switch only writes the refcount table. *)
Lemma boost_switch_frame (type : Z) (g : globals) :
  exec (boost_switch type) g =
  with_refcount (boost_refcount (exec (boost_switch type) g)) g.
Proof.
  destruct g as [sb st bp dt [r0 r1 r2 r3] mn mx].
  kern_cases; reflexivity.
Qed.

(** Every legal code has its [case]; the others take [default]. *)
Lemma boost_switch_reached (type : Z) (g : globals) :
  result (boost_switch type) g = verify_boost_params type.
Proof.
  destruct g as [sb st bp dt [r0 r1 r2 r3] mn mx].
  unfold verify_boost_params.
  kern_cases; try reflexivity; lia.
Qed.

(** [_sched_set_boost], past its switch. *)
Lemma _sched_set_boost_run (type : Z) (g : globals) :
  _sched_set_boost type g =
  if result (boost_switch type) g then
    (tt, publish (exec (boost_switch type) g),
     calls (boost_switch type) g
       ++ [trace_sched_set_boost (aggregate
             (boost_refcount (exec (boost_switch type) g)))])
  else
    (tt, exec (boost_switch type) g, calls (boost_switch type) g ++ []).
Proof.
  unfold _sched_set_boost, bind at 1, result, exec, calls.
  destruct (boost_switch type g) as [[reached g1] l1]. cbn [fst snd].
  destruct reached; [ | reflexivity].
  unfold bind. rewrite aggregate_boost_type_run.
  cbv [set_sched_boost_type set_sysctl_sched_boost write fire].
  rewrite set_boost_policy_run. destruct g1; reflexivity.
Qed.

Lemma sched_set_boost_legal (type : Z) (g : globals) :
  legal type ->
  sched_set_boost type g =
  (0, publish (exec (boost_switch type) g),
   calls (boost_switch type) g
     ++ [trace_sched_set_boost (aggregate
           (boost_refcount (exec (boost_switch type) g)))]).
Proof.
  intros H. unfold sched_set_boost. rewrite H.
  unfold bind at 1. rewrite _sched_set_boost_run, boost_switch_reached, H.
  unfold ret. now rewrite app_nil_r.
Qed.

Lemma sched_set_boost_illegal (type : Z) (g : globals) :
  verify_boost_params type = false ->
  sched_set_boost type g = (- EINVAL, g, []).
Proof. intros H. unfold sched_set_boost. now rewrite H. Qed.

Lemma publish_published (g : globals) : published (publish g).
Proof.
  unfold published, publish. cbn.
  rewrite to_uint_aggregate. repeat split.
Qed.

(** After a legal request the published state is the one derived from the
    refcount table the request leaves. *)
Lemma step_published (type : Z) (g : globals) :
  legal type -> published (exec (sched_set_boost type) g).
Proof.
  intros H. unfold exec. rewrite sched_set_boost_legal by assumption.
  apply publish_published.
Qed.

(** A request only writes the refcount table and the published triple. *)
Lemma step_env (type : Z) (g : globals) :
  let g' := exec (sched_set_boost type) g in
  boost_policy_dt g' = boost_policy_dt g /\
  min_possible_efficiency g' = min_possible_efficiency g /\
  max_possible_efficiency g' = max_possible_efficiency g.
Proof.
  cbv zeta. destruct (verify_boost_params type) eqn:H.
  - unfold exec at 1 2 3. rewrite sched_set_boost_legal by assumption.
    cbn [fst snd]. rewrite boost_switch_frame. destruct g. repeat split.
  - unfold exec. rewrite sched_set_boost_illegal by assumption.
    repeat split.
Qed.

Lemma step_refcount (type : Z) (g : globals) :
  legal type ->
  boost_refcount (exec (sched_set_boost type) g) =
  boost_refcount (exec (boost_switch type) g).
Proof.
  intros H. unfold exec at 1. now rewrite sched_set_boost_legal.
Qed.

(** ** Sequences of requests *)

Lemma run_app (l1 l2 : list Z) (g : globals) :
  run (l1 ++ l2) g = run l2 (run l1 g).
Proof. revert g. induction l1 as [ | t l1 IH]; intros g; cbn; auto. Qed.

Lemma run_env (reqs : list Z) (g : globals) :
  boost_policy_dt (run reqs g) = boost_policy_dt g /\
  min_possible_efficiency (run reqs g) = min_possible_efficiency g /\
  max_possible_efficiency (run reqs g) = max_possible_efficiency g.
Proof.
  revert g. induction reqs as [ | t reqs IH]; intros g; cbn [run].
  - repeat split.
  - destruct (IH (exec (sched_set_boost t) g)) as (-> & -> & ->).
    apply step_env.
Qed.

(** The hooks of a legal request are those of its [case]; the request
    leaves the state its [case] leaves, published. *)
Lemma hooks_step (type : Z) (g : globals) :
  legal type ->
  hooks (sched_set_boost type) g = hooks (boost_switch type) g.
Proof.
  intros H. unfold hooks, calls at 1. rewrite sched_set_boost_legal by assumption.
  cbn [snd]. rewrite filter_app. cbn. apply app_nil_r.
Qed.

Lemma exec_step (type : Z) (g : globals) :
  legal type ->
  exec (sched_set_boost type) g = publish (exec (boost_switch type) g).
Proof. intros H. unfold exec at 1. now rewrite sched_set_boost_legal. Qed.

Lemma run_hooks_cons (type : Z) (reqs : list Z) (g : globals) :
  legal type ->
  run_hooks (type :: reqs) g =
  hooks (boost_switch type) g
    :: run_hooks reqs (publish (exec (boost_switch type) g)).
Proof. intros H. cbn [run_hooks]. now rewrite hooks_step, exec_step. Qed.

(** The state after a non-empty sequence of legal requests is published. *)
Lemma run_published (reqs : list Z) (g : globals) :
  Forall legal reqs -> reqs <> [] -> published (run reqs g).
Proof.
  revert g. induction reqs as [ | t reqs IH]; intros g Hall Hne.
  - congruence.
  - inversion Hall as [ | ? ? Ht Hreqs]; subst. cbn [run].
    destruct reqs as [ | t' reqs'].
    + cbn [run]. now apply step_published.
    + apply IH; [assumption | discriminate].
Qed.

Lemma firstn_legal (n : nat) (reqs : list Z) :
  Forall legal reqs -> Forall legal (firstn n reqs).
Proof.
  intros H. revert n. induction H as [ | t reqs Ht Hreqs IH]; intros [ | n];
    cbn; constructor; auto.
Qed.

Lemma firstn_nonempty {A} (n : nat) (l : list A) :
  (0 < n <= length l)%nat -> firstn n l <> [].
Proof.
  destruct n; [lia | ]. destruct l; cbn; [lia | discriminate].
Qed.

(** ** C1: aggregation *)

(** C1.  After each request of a sequence of legal requests, the published
    kind is the aggregate of the refcount table at that point (FullThrottle
    if its refcount is positive, else Conservative, else Restrained, else
    None); two histories that end in the same refcount table publish the
    same kind, whatever the order of their requests. *)
Theorem published_kind_is_aggregate
    (g1 g2 : globals) (reqs1 reqs2 : list Z) (n1 n2 : nat) :
  Forall legal reqs1 -> Forall legal reqs2 ->
  (0 < n1 <= length reqs1)%nat -> (0 < n2 <= length reqs2)%nat ->
  let a := run (firstn n1 reqs1) g1 in
  let b := run (firstn n2 reqs2) g2 in
  sched_boost_type a = aggregate (boost_refcount a) /\
  (boost_refcount a = boost_refcount b ->
   sched_boost_type a = sched_boost_type b).
Proof.
  intros H1 H2 Hn1 Hn2 a b.
  assert (Ha : published a)
    by (apply run_published; auto using firstn_legal, firstn_nonempty).
  assert (Hb : published b)
    by (apply run_published; auto using firstn_legal, firstn_nonempty).
  destruct Ha as (Ha & _), Hb as (Hb & _).
  split; [exact Ha | ]. intros E. now rewrite Ha, Hb, E.
Qed.

Lemma published_kind_is_aggregate_witness :
  let a := run (firstn 3 [1; 3; -1; 2]) (boot None 1024 1024) in
  let b := run (firstn 1 [3]) (boot None 1024 1024) in
  sched_boost_type a = aggregate (boost_refcount a) /\
  (boost_refcount a = boost_refcount b ->
   sched_boost_type a = sched_boost_type b).
Proof.
  apply (published_kind_is_aggregate
           (boot None 1024 1024) (boot None 1024 1024) [1; 3; -1; 2] [3] 3 1).
  - repeat constructor.
  - repeat constructor.
  - cbn; lia.
  - cbn; lia.
Defined.

(** ** C2: the policy rule *)

(** C2.  [set_boost_policy] publishes the policy of the four-case rule:
    [None] for kind [None] or [Restrained]; otherwise the boot-time
    override when one is set; otherwise [OnBig] on a heterogeneous
    processor set and [OnAll] on a homogeneous one.  With override [OnBig]
    and kind [FullThrottle] the policy is [OnBig] even when the minimum and
    maximum capacity are equal. *)
Theorem set_boost_policy_rule (type : Z) (g : globals) :
  boost_policy (exec (set_boost_policy type) g) =
    derive_policy type (override g) (heterogeneous g) /\
  (forall sb st bp rc eff,
     boost_policy
       (exec (set_boost_policy FULL_THROTTLE_BOOST)
          (mk_globals sb st bp SCHED_BOOST_ON_BIG rc eff eff)) =
     SCHED_BOOST_ON_BIG).
Proof.
  split.
  - unfold exec. now rewrite set_boost_policy_run.
  - intros. unfold exec. now rewrite set_boost_policy_run.
Qed.

(** ** C8: validation at the entry point *)

(** C8.  [sched_set_boost] accepts exactly the seven legal codes.  For any
    other code it returns the invalid-request error ([-EINVAL]), makes no
    call at all, and leaves every variable as it was; for a legal code it
    returns 0. *)
Theorem sched_set_boost_validates (type : Z) (g : globals) :
  (In type legal_requests -> result (sched_set_boost type) g = 0) /\
  (~ In type legal_requests ->
   result (sched_set_boost type) g = - EINVAL /\
   calls (sched_set_boost type) g = [] /\
   exec (sched_set_boost type) g = g).
Proof.
  split; intros H.
  - apply legal_iff_listed in H. unfold result.
    now rewrite sched_set_boost_legal.
  - assert (E : verify_boost_params type = false).
    { destruct (verify_boost_params type) eqn:E; [ | reflexivity].
      exfalso. apply H. now apply legal_iff_listed. }
    unfold result, calls, exec. rewrite sched_set_boost_illegal by assumption.
    repeat split.
Qed.

Lemma sched_set_boost_validates_witness :
  result (sched_set_boost 2) (boot None 1 2) = 0 /\
  result (sched_set_boost 4) (boot None 1 2) = - EINVAL /\
  calls (sched_set_boost 4) (boot None 1 2) = [] /\
  exec (sched_set_boost 4) (boot None 1 2) = boot None 1 2.
Proof.
  split.
  - apply (sched_set_boost_validates 2 (boot None 1 2)). vm_compute. lia.
  - apply (sched_set_boost_validates 4 (boot None 1 2)). vm_compute. lia.
Defined.

(** ** C10: kind and policy are published together *)

(** The derived policy is [None] for exactly the kinds [None] and
    [Restrained]: an override that is set is not [None], and neither are
    [OnBig] and [OnAll]. *)
Lemma derive_policy_none_iff (kind : Z) (g : globals) :
  derive_policy kind (override g) (heterogeneous g) = SCHED_BOOST_NONE <->
  kind = NO_BOOST \/ kind = RESTRAINED_BOOST.
Proof.
  unfold derive_policy, override, NO_BOOST, RESTRAINED_BOOST.
  destruct (Z.eqb_spec kind 0) as [E0 | E0]; cbn [orb].
  - split; auto.
  - destruct (Z.eqb_spec kind 3) as [E3 | E3].
    + split; auto.
    + destruct (boost_policy_dt g), (heterogeneous g);
        split; intros H; try discriminate H; lia.
Qed.

(** C10.  After a legal request the published policy is [derive_policy] of
    the published kind, which is the aggregate of the refcount table the
    request leaves; so the policy is [None] exactly when the kind is [None]
    or [Restrained], and the pair never mixes two transitions. *)
Theorem policy_consistent_with_kind (type : Z) (g : globals) :
  legal type ->
  let g' := exec (sched_set_boost type) g in
  sched_boost_type g' = aggregate (boost_refcount g') /\
  boost_policy g' =
    derive_policy (sched_boost_type g') (override g') (heterogeneous g') /\
  (boost_policy g' = SCHED_BOOST_NONE <->
   sched_boost_type g' = NO_BOOST \/ sched_boost_type g' = RESTRAINED_BOOST).
Proof.
  intros H g'. destruct (step_published type g H) as (Hk & _ & Hp).
  fold g' in Hk, Hp. rewrite <- Hk in Hp.
  split; [exact Hk | ]. split; [exact Hp | ].
  rewrite Hp. apply derive_policy_none_iff.
Qed.

Lemma policy_consistent_with_kind_witness :
  let g' := exec (sched_set_boost 2) (boot (Some (Some "boost-on-all"%string)) 1 2) in
  sched_boost_type g' = aggregate (boost_refcount g') /\
  boost_policy g' =
    derive_policy (sched_boost_type g') (override g') (heterogeneous g') /\
  (boost_policy g' = SCHED_BOOST_NONE <->
   sched_boost_type g' = NO_BOOST \/ sched_boost_type g' = RESTRAINED_BOOST).
Proof.
  apply (policy_consistent_with_kind 2
           (boot (Some (Some "boost-on-all"%string)) 1 2)).
  reflexivity.
Defined.

(** ** C4: frequency aggregation is held by Restrained across a FullThrottle
    episode *)

Lemma boot_shape sn min_eff max_eff :
  exists dt,
    boot sn min_eff max_eff =
    mk_globals 0 0 SCHED_BOOST_NONE dt (mk_refcount 0 0 0 0) min_eff max_eff.
Proof.
  unfold boot, sched_boost_parse_dt.
  destruct sn as [[policy | ] | ]; try (eexists; reflexivity).
  destruct (String.eqb policy "boost-on-big"); [eexists; reflexivity | ].
  destruct (String.eqb policy "boost-on-all"); eexists; reflexivity.
Qed.

(** C4.  From the clean state, enable Restrained, enable FullThrottle,
    disable FullThrottle, disable Restrained fire, request by request:
    [frequency_aggregation(enable)]; then the two FullThrottle entry hooks
    and no second [frequency_aggregation(enable)]; then
    [core_control_boost(disable)] alone, with no
    [frequency_aggregation(disable)]; then [frequency_aggregation(disable)],
    once. *)
Theorem restrained_holds_frequency_aggregation sn min_eff max_eff :
  run_hooks
    [RESTRAINED_BOOST; FULL_THROTTLE_BOOST;
     FULL_THROTTLE_BOOST_DISABLE; RESTRAINED_BOOST_DISABLE]
    (boot sn min_eff max_eff) =
  [ [walt_enable_frequency_aggregation true];
    [core_ctl_set_boost true; restore_cgroup_boost_settings];
    [core_ctl_set_boost false];
    [walt_enable_frequency_aggregation false] ].
Proof.
  destruct (boot_shape sn min_eff max_eff) as [dt ->].
  repeat (rewrite run_hooks_cons by reflexivity). reflexivity.
Qed.

(** ** The refcount table after each kind of request *)

Lemma kinds_cases (kind : Z) :
  In kind kinds -> kind = 1 \/ kind = 2 \/ kind = 3.
Proof.
  cbv [kinds In FULL_THROTTLE_BOOST CONSERVATIVE_BOOST RESTRAINED_BOOST]. lia.
Qed.

Ltac each_kind H :=
  apply kinds_cases in H; destruct H as [H | [H | H]]; subst.

Lemma kind_legal (kind : Z) : In kind kinds -> legal kind.
Proof. intros H. each_kind H; reflexivity. Qed.

Lemma matching_disable_legal (kind : Z) :
  In kind kinds -> legal (matching_disable kind).
Proof. intros H. each_kind H; reflexivity. Qed.

Lemma enable_refcount (kind : Z) (g : globals) :
  In kind kinds ->
  boost_refcount (exec (boost_switch kind) g) =
  set (boost_refcount g) kind (to_int (get (boost_refcount g) kind + 1)).
Proof.
  intros H. destruct g as [sb st bp dt [r0 r1 r2 r3] mn mx].
  each_kind H; kern_cases; reflexivity.
Qed.

Lemma disable_refcount (kind : Z) (g : globals) :
  In kind kinds ->
  boost_refcount (exec (boost_switch (matching_disable kind)) g) =
  if 1 <=? get (boost_refcount g) kind
  then set (boost_refcount g) kind (to_int (get (boost_refcount g) kind - 1))
  else boost_refcount g.
Proof.
  intros H. destruct g as [sb st bp dt [r0 r1 r2 r3] mn mx].
  each_kind H; cbv [matching_disable]; kern_cases; reflexivity || lia.
Qed.

Lemma clear_refcount (g : globals) :
  boost_refcount (exec (boost_switch NO_BOOST) g) =
  mk_refcount (slot0 (boost_refcount g))
    (cleared (get (boost_refcount g) FULL_THROTTLE_BOOST))
    (cleared (get (boost_refcount g) CONSERVATIVE_BOOST))
    (cleared (get (boost_refcount g) RESTRAINED_BOOST)).
Proof.
  destruct g as [sb st bp dt [r0 r1 r2 r3] mn mx].
  unfold cleared. kern_cases; reflexivity || lia.
Qed.

Lemma clear_hooks (g : globals) :
  hooks (boost_switch NO_BOOST) g = clear_all_hooks (boost_refcount g).
Proof.
  destruct g as [sb st bp dt [r0 r1 r2 r3] mn mx].
  unfold clear_all_hooks. kern_cases; reflexivity || lia.
Qed.

(** ** C3: what the clear-all request fires *)

(** C3, as the code has it.  The clear-all request fires, for a positive
    FullThrottle refcount, [core_control_boost(disable)] and then
    [frequency_aggregation(disable)], whatever the other refcounts are and
    without [update_cgroup_boost_settings()]; for a positive Conservative
    refcount, [restore_cgroup_boost_settings()]; for a positive Restrained
    refcount, [frequency_aggregation(disable)], whatever the FullThrottle
    refcount was; in that order, and nothing else. *)
Theorem clear_all_fires (g : globals) :
  hooks (sched_set_boost NO_BOOST) g = clear_all_hooks (boost_refcount g).
Proof. rewrite hooks_step by reflexivity. apply clear_hooks. Qed.

(** C3 as stated fails with FullThrottle and Conservative both held: the
    replay of the FullThrottle disable would fire
    [update_cgroup_boost_settings()], which the clear-all branch never
    calls. *)
Lemma clear_all_does_not_replay_disable :
  let g := run [FULL_THROTTLE_BOOST; CONSERVATIVE_BOOST] (boot None 0 0) in
  hooks (sched_set_boost NO_BOOST) g =
    [core_ctl_set_boost false; walt_enable_frequency_aggregation false;
     restore_cgroup_boost_settings] /\
  full_disable_replayed (boost_refcount g) =
    [core_ctl_set_boost false; update_cgroup_boost_settings;
     walt_enable_frequency_aggregation false; restore_cgroup_boost_settings] /\
  hooks (sched_set_boost NO_BOOST) g <> full_disable_replayed (boost_refcount g).
Proof.
  cbv zeta. split; [reflexivity | ]. split; [reflexivity | ].
  intros E. vm_compute in E. discriminate E.
Qed.

(** ** Reading and writing slots *)

Lemma get_set_same (a : refcount_array) (kind v : Z) :
  In kind kinds -> get (set a kind v) kind = v.
Proof. intros H. each_kind H; reflexivity. Qed.

Lemma set_set (a : refcount_array) (kind v w : Z) :
  set (set a kind v) kind w = set a kind w.
Proof. destruct kind as [ | [ [ | | ] | [ | | ] | ] | ]; reflexivity. Qed.

Lemma set_get (a : refcount_array) (kind : Z) : set a kind (get a kind) = a.
Proof.
  destruct a. destruct kind as [ | [ [ | | ] | [ | | ] | ] | ]; reflexivity.
Qed.

(** ** Counting requests *)

(** [n] enables of one kind add [n] to its slot, as long as the sum fits
    in an [int]. *)
Lemma enable_n (n : nat) (kind : Z) (g : globals) :
  In kind kinds ->
  0 <= get (boost_refcount g) kind ->
  get (boost_refcount g) kind + Z.of_nat n <= INT_MAX ->
  boost_refcount (run (repeat kind n) g) =
  set (boost_refcount g) kind (get (boost_refcount g) kind + Z.of_nat n).
Proof.
  intros Hk. revert g. induction n as [ | n IH]; intros g H0 Hmax.
  - cbn [repeat run]. now rewrite Z.add_0_r, set_get.
  - cbn [repeat run].
    assert (E : boost_refcount (exec (sched_set_boost kind) g) =
                set (boost_refcount g) kind (get (boost_refcount g) kind + 1)).
    { rewrite step_refcount by now apply kind_legal.
      rewrite enable_refcount by assumption.
      rewrite to_int_small; [reflexivity | ].
      unfold in_int, INT_MIN, INT_MAX in *. lia. }
    rewrite IH; rewrite E, ?get_set_same by assumption; try lia.
    rewrite set_set. f_equal. lia.
Qed.


(** One enable too many: the slot wraps to [INT_MIN]. *)
Lemma enable_overflow (n : nat) (g : globals) :
  Z.of_nat n = INT_MAX ->
  get (boost_refcount g) FULL_THROTTLE_BOOST = 0 ->
  get (boost_refcount
         (run (repeat FULL_THROTTLE_BOOST n ++ [FULL_THROTTLE_BOOST]) g))
    FULL_THROTTLE_BOOST = INT_MIN.
Proof.
  intros Hn H0. rewrite run_app. cbn [run].
  assert (Hk : In FULL_THROTTLE_BOOST kinds) by (left; reflexivity).
  rewrite step_refcount by reflexivity.
  rewrite enable_refcount by assumption.
  rewrite get_set_same by assumption.
  rewrite enable_n by (assumption || lia).
  rewrite get_set_same by assumption.
  rewrite H0, Hn. reflexivity.
Qed.

Lemma of_nat_INT_MAX : Z.of_nat (Z.to_nat INT_MAX) = INT_MAX.
Proof. apply Z2Nat.id. discriminate. Qed.

(** ** The control-surface handler *)

Lemma to_int_to_uint (v : Z) : in_int v -> to_int (to_uint v) = v.
Proof.
  intros H. unfold to_int, to_uint.
  rewrite Zplus_mod_idemp_l. now apply to_int_small.
Qed.

Lemma legal_in_int (type : Z) : legal type -> in_int type.
Proof.
  intros H. apply legal_cases in H. unfold in_int, INT_MIN, INT_MAX. lia.
Qed.

(** The switch reads and writes the refcount table only: the raw value the
    generic handler stored does not change what it does. *)
Lemma boost_switch_stored (type v : Z) (g : globals) :
  let g_v := exec (set_sysctl_sched_boost v) g in
  result (boost_switch type) g_v = result (boost_switch type) g /\
  exec (boost_switch type) g_v =
    exec (set_sysctl_sched_boost v) (exec (boost_switch type) g) /\
  calls (boost_switch type) g_v = calls (boost_switch type) g.
Proof.
  destruct g as [sb st bp dt [r0 r1 r2 r3] mn mx].
  kern_cases; repeat split; reflexivity.
Qed.

Lemma publish_stored (v : Z) (g : globals) :
  publish (exec (set_sysctl_sched_boost v) g) = publish g.
Proof. destruct g; reflexivity. Qed.

Lemma _sched_set_boost_stored (type v : Z) (g : globals) :
  legal type ->
  _sched_set_boost type (exec (set_sysctl_sched_boost v) g) =
  (tt, exec (sched_set_boost type) g, calls (sched_set_boost type) g).
Proof.
  intros H. rewrite _sched_set_boost_run.
  destruct (boost_switch_stored type v g) as (-> & -> & ->).
  rewrite boost_switch_reached, H, publish_stored.
  rewrite (exec_step type g H).
  unfold calls at 2. rewrite sched_set_boost_legal by assumption.
  reflexivity.
Qed.

(** A legal write through the handler does what [sched_set_boost] does. *)
Lemma handler_write (table : ctl_table) (v : Z) (g : globals) :
  legal v ->
  extra1 table <= v <= extra2 table ->
  sched_boost_handler table true v g =
  ((0, v), exec (sched_set_boost v) g, calls (sched_set_boost v) g).
Proof.
  intros Hv Hb.
  unfold sched_boost_handler, proc_dointvec_minmax.
  replace ((extra1 table <=? v) && (v <=? extra2 table)) with true
    by (symmetry; apply andb_true_iff; split; apply Z.leb_le; lia).
  cbv [bind ret read].
  change (set_sysctl_sched_boost v g)
    with (tt, exec (set_sysctl_sched_boost v) g, @nil call).
  cbn [fst snd negb orb Z.eqb app].
  replace (sysctl_sched_boost (exec (set_sysctl_sched_boost v) g))
    with (to_uint v) by (destruct g; reflexivity).
  rewrite to_int_to_uint by now apply legal_in_int.
  rewrite Hv, _sched_set_boost_stored by assumption.
  now rewrite app_nil_r.
Qed.

(** A read through the handler returns the stored integer and changes
    nothing. *)
Lemma handler_read (table : ctl_table) (buffer : Z) (g : globals) :
  sched_boost_handler table false buffer g =
  ((0, to_int (sysctl_sched_boost g)), g, []).
Proof. reflexivity. Qed.






(** Direct requests keep a published state published. *)
Lemma run_keeps_published (reqs : list Z) (g : globals) :
  published g -> published (run reqs g).
Proof.
  revert g. induction reqs as [ | t reqs IH]; intros g Hp; cbn [run].
  - exact Hp.
  - apply IH. destruct (verify_boost_params t) eqn:E.
    + now apply step_published.
    + unfold exec. now rewrite sched_set_boost_illegal.
Qed.

Lemma boot_published sn min_eff max_eff : published (boot sn min_eff max_eff).
Proof. destruct (boot_shape sn min_eff max_eff) as [dt ->]. repeat split. Qed.

(** A published state is determined by its refcount table and the boot-time
    inputs. *)
Lemma published_ext (a b : globals) :
  published a -> published b ->
  boost_refcount a = boost_refcount b ->
  boost_policy_dt a = boost_policy_dt b ->
  min_possible_efficiency a = min_possible_efficiency b ->
  max_possible_efficiency a = max_possible_efficiency b ->
  a = b.
Proof.
  unfold published, override, heterogeneous.
  destruct a, b; cbn. intros (-> & -> & ->) (-> & -> & ->) -> -> -> ->.
  reflexivity.
Qed.

(** One request raises no slot by more than one and, short of [INT_MAX],
    takes none below zero. *)
Lemma step_bounded (type : Z) (g : globals) (n : Z) :
  0 <= n < INT_MAX ->
  bounded n (boost_refcount g) ->
  bounded (n + 1) (boost_refcount (exec (sched_set_boost type) g)).
Proof.
  intros Hn Hb. destruct (verify_boost_params type) eqn:E.
  - rewrite step_refcount by assumption.
    destruct g as [sb st bp dt [r0 r1 r2 r3] mn mx].
    unfold bounded, INT_MAX in *. cbn in Hb.
    assert (T : forall r, 0 <= r <= n ->
                to_int (r + 1) = r + 1 /\ to_int (r - 1) = r - 1).
    { intros r Hr. split; apply to_int_small;
        unfold in_int, INT_MIN, INT_MAX; lia. }
    destruct (T r1) as [I1 D1]; [lia | ].
    destruct (T r2) as [I2 D2]; [lia | ].
    destruct (T r3) as [I3 D3]; [lia | ].
    each_legal E; kern_cases; rewrite ?I1, ?I2, ?I3, ?D1, ?D2, ?D3; lia.
  - unfold exec. rewrite sched_set_boost_illegal by assumption. cbn [fst snd].
    unfold bounded in *. lia.
Qed.

Lemma run_bounded (reqs : list Z) (g : globals) (n : Z) :
  0 <= n ->
  n + Z.of_nat (length reqs) <= INT_MAX ->
  bounded n (boost_refcount g) ->
  bounded (n + Z.of_nat (length reqs)) (boost_refcount (run reqs g)).
Proof.
  revert g n. induction reqs as [ | t reqs IH]; intros g n Hn Hmax Hb.
  - cbn [run length]. now rewrite Z.add_0_r.
  - cbn [run]. cbn [length] in *.
    replace (n + Z.of_nat (S (length reqs)))
      with (n + 1 + Z.of_nat (length reqs)) by lia.
    apply IH; [lia | lia | ]. apply step_bounded; [lia | assumption].
Qed.

Lemma boot_refcount sn min_eff max_eff :
  boost_refcount (boot sn min_eff max_eff) = mk_refcount 0 0 0 0.
Proof. destruct (boot_shape sn min_eff max_eff) as [dt ->]. reflexivity. Qed.

Lemma firstn_length_le {A} (n : nat) (l : list A) :
  (length (firstn n l) <= length l)%nat.
Proof. rewrite length_firstn. lia. Qed.

Lemma cleared_nonpositive (count : Z) : cleared count <= 0.
Proof. unfold cleared. case_if; lia. Qed.

Lemma cleared_nonnegative (count : Z) : 0 <= count -> cleared count = 0.
Proof. unfold cleared. case_if; lia. Qed.

Lemma clear_slot (g : globals) (kind : Z) :
  In kind kinds ->
  get (boost_refcount (exec (sched_set_boost NO_BOOST) g)) kind =
  cleared (get (boost_refcount g) kind).
Proof.
  intros Hk. rewrite step_refcount by reflexivity.
  rewrite clear_refcount. each_kind Hk; reflexivity.
Qed.

(** ** C5: the clear-all request *)

(** C5, as the code has it.  After the clear-all request the published kind
    and its duplicate are [None] and the policy is [None], whatever the
    state before; every positive refcount is reset to 0 and the others are
    left as they were, so all three refcounts are 0 whenever none was
    negative before. *)
Theorem clear_all_resets (g : globals) :
  let g' := exec (sched_set_boost NO_BOOST) g in
  sched_boost_type g' = NO_BOOST /\
  sysctl_sched_boost g' = NO_BOOST /\
  boost_policy g' = SCHED_BOOST_NONE /\
  (forall kind, In kind kinds ->
     get (boost_refcount g') kind = cleared (get (boost_refcount g) kind)) /\
  (nonnegative (boost_refcount g) ->
   forall kind, In kind kinds -> get (boost_refcount g') kind = 0).
Proof.
  intros g'.
  assert (Hrc : forall kind, In kind kinds ->
            get (boost_refcount g') kind = cleared (get (boost_refcount g) kind))
    by (intros; now apply clear_slot).
  assert (Hagg : aggregate (boost_refcount g') = NO_BOOST).
  { unfold aggregate.
    rewrite !Hrc by (cbv [kinds In]; auto).
    pose proof (cleared_nonpositive (get (boost_refcount g) FULL_THROTTLE_BOOST)).
    pose proof (cleared_nonpositive (get (boost_refcount g) CONSERVATIVE_BOOST)).
    pose proof (cleared_nonpositive (get (boost_refcount g) RESTRAINED_BOOST)).
    repeat match goal with
           | |- context [0 <? ?x] => destruct (Z.ltb_spec 0 x); [lia | ]
           end.
    reflexivity. }
  destruct (step_published NO_BOOST g eq_refl) as (Hk & Hs & Hp).
  fold g' in Hk, Hs, Hp. rewrite Hagg in Hk, Hs, Hp.
  repeat split; try assumption.
  intros (H1 & H2 & H3) kind Hk'. rewrite Hrc by assumption.
  apply cleared_nonnegative. each_kind Hk'; assumption.
Qed.

Lemma clear_all_resets_witness :
  let g := run [1; 1; 3; 2] (boot None 1 2) in
  get (boost_refcount (exec (sched_set_boost NO_BOOST) g)) FULL_THROTTLE_BOOST
  = 0.
Proof.
  cbv zeta.
  apply (clear_all_resets (run [1; 1; 3; 2] (boot None 1 2))).
  - vm_compute. repeat split; discriminate.
  - left. reflexivity.
Defined.

(** C5 as stated fails once a counter has wrapped: after [INT_MAX + 1]
    enables of FullThrottle its refcount is [INT_MIN], which the clear-all
    request, testing [> 0], leaves in place. *)
Lemma clear_all_keeps_wrapped_refcount :
  get (boost_refcount
         (exec (sched_set_boost NO_BOOST)
            (run (repeat FULL_THROTTLE_BOOST (Z.to_nat INT_MAX)
                    ++ [FULL_THROTTLE_BOOST])
               (boot None 0 0))))
    FULL_THROTTLE_BOOST = INT_MIN.
Proof.
  rewrite clear_slot by (left; reflexivity).
  rewrite enable_overflow; [reflexivity | apply of_nat_INT_MAX | reflexivity].
Qed.

(** ** C6: refcounts do not go negative *)

(** A request keeps every slot between 0 and [INT_MAX], unless it is an
    enable of a kind whose slot is at [INT_MAX]. *)
Lemma step_in_range (type : Z) (g : globals) :
  bounded INT_MAX (boost_refcount g) ->
  (is_enable type = true -> get (boost_refcount g) type <> INT_MAX) ->
  bounded INT_MAX (boost_refcount (exec (sched_set_boost type) g)).
Proof.
  intros Hb Hen. destruct (verify_boost_params type) eqn:E.
  - rewrite step_refcount by assumption.
    destruct g as [sb st bp dt [r0 r1 r2 r3] mn mx].
    unfold bounded, INT_MAX in *. cbn in Hb.
    assert (I1 : type = 1 ->
                 to_int (r1 + 1) = r1 + 1 /\ r1 < 2147483647).
    { intros ->. specialize (Hen eq_refl). cbn in Hen.
      split; [ | lia].
      apply to_int_small. unfold in_int, INT_MIN, INT_MAX. lia. }
    assert (I2 : type = 2 ->
                 to_int (r2 + 1) = r2 + 1 /\ r2 < 2147483647).
    { intros ->. specialize (Hen eq_refl). cbn in Hen.
      split; [ | lia].
      apply to_int_small. unfold in_int, INT_MIN, INT_MAX. lia. }
    assert (I3 : type = 3 ->
                 to_int (r3 + 1) = r3 + 1 /\ r3 < 2147483647).
    { intros ->. specialize (Hen eq_refl). cbn in Hen.
      split; [ | lia].
      apply to_int_small. unfold in_int, INT_MIN, INT_MAX. lia. }
    assert (D : forall r, 0 <= r <= 2147483647 -> to_int (r - 1) = r - 1).
    { intros r Hr. apply to_int_small. unfold in_int, INT_MIN, INT_MAX. lia. }
    pose proof (D r1) as D1. pose proof (D r2) as D2. pose proof (D r3) as D3.
    clear Hen D.
    each_legal E; kern_cases; lia.
  - unfold exec. rewrite sched_set_boost_illegal by assumption. exact Hb.
Qed.

Lemma run_in_range (reqs : list Z) (g : globals) :
  enables_below_max reqs g = true ->
  bounded INT_MAX (boost_refcount g) ->
  bounded INT_MAX (boost_refcount (run reqs g)).
Proof.
  revert g. induction reqs as [ | t reqs IH]; intros g He Hb.
  - exact Hb.
  - cbn [run enables_below_max] in *.
    apply andb_true_iff in He as [Ht He].
    apply IH; [exact He | ]. apply step_in_range; [exact Hb | ].
    intros Hen. rewrite Hen in Ht. cbn [negb orb] in Ht.
    apply negb_true_iff, Z.eqb_neq in Ht. exact Ht.
Qed.

Lemma enables_below_max_firstn (n : nat) (reqs : list Z) (g : globals) :
  enables_below_max reqs g = true ->
  enables_below_max (firstn n reqs) g = true.
Proof.
  revert n g. induction reqs as [ | t reqs IH]; intros [ | n] g He;
    cbn [firstn enables_below_max] in *; try reflexivity.
  apply andb_true_iff in He as [Ht He].
  apply andb_true_iff. split; [exact Ht | now apply IH].
Qed.

(** C6, as the code has it.  From the boot state, after each request of a
    sequence of requests (of any codes and of any length) in which no
    enable is issued while the refcount of its kind is [INT_MAX], no
    refcount is negative; in any state a disable request for a kind whose
    refcount is 0 leaves the whole table, and so that refcount, as it was;
    and the excluded request, an enable of a kind whose refcount is
    [INT_MAX], does make that refcount negative ([INT_MIN]). *)
Theorem refcounts_stay_nonnegative
    sn min_eff max_eff (reqs : list Z) (n : nat) :
  enables_below_max reqs (boot sn min_eff max_eff) = true ->
  nonnegative (boost_refcount (run (firstn n reqs) (boot sn min_eff max_eff))) /\
  (forall g kind,
     In kind kinds ->
     get (boost_refcount g) kind = 0 ->
     let g' := exec (sched_set_boost (matching_disable kind)) g in
     get (boost_refcount g') kind = 0 /\
     boost_refcount g' = boost_refcount g) /\
  (forall g kind,
     In kind kinds ->
     get (boost_refcount g) kind = INT_MAX ->
     get (boost_refcount (exec (sched_set_boost kind) g)) kind = INT_MIN).
Proof.
  intros He. split; [ | split].
  - assert (B : bounded INT_MAX
                  (boost_refcount (run (firstn n reqs) (boot sn min_eff max_eff)))).
    { apply run_in_range; [now apply enables_below_max_firstn | ].
      rewrite boot_refcount. unfold bounded, INT_MAX. cbn. lia. }
    unfold bounded in B. unfold nonnegative. lia.
  - intros g kind Hk H0 g'.
    assert (E : boost_refcount g' = boost_refcount g).
    { unfold g'. rewrite step_refcount by now apply matching_disable_legal.
      rewrite disable_refcount by assumption.
      rewrite H0. reflexivity. }
    split; [ | exact E]. now rewrite E.
  - intros g kind Hk Hmax.
    rewrite step_refcount by now apply kind_legal.
    rewrite enable_refcount, get_set_same, Hmax by assumption.
    reflexivity.
Qed.

Lemma refcounts_stay_nonnegative_witness :
  nonnegative (boost_refcount (run (firstn 3 [1; -1; -1; 2]) (boot None 1 2))) /\
  (forall g kind,
     In kind kinds ->
     get (boost_refcount g) kind = 0 ->
     let g' := exec (sched_set_boost (matching_disable kind)) g in
     get (boost_refcount g') kind = 0 /\
     boost_refcount g' = boost_refcount g) /\
  (forall g kind,
     In kind kinds ->
     get (boost_refcount g) kind = INT_MAX ->
     get (boost_refcount (exec (sched_set_boost kind) g)) kind = INT_MIN).
Proof.
  apply (refcounts_stay_nonnegative None 1 2 [1; -1; -1; 2] 3).
  reflexivity.
Defined.

(** C6 as stated fails for long sequences: the refcount is an [int], and
    the enable that follows [INT_MAX] enables of FullThrottle wraps it to
    [INT_MIN]. *)
Lemma refcount_wraps_negative :
  get (boost_refcount
         (run (repeat FULL_THROTTLE_BOOST (Z.to_nat INT_MAX)
                 ++ [FULL_THROTTLE_BOOST])
            (boot None 0 0)))
    FULL_THROTTLE_BOOST = INT_MIN /\
  INT_MIN < 0.
Proof.
  split; [ | reflexivity].
  apply enable_overflow; [apply of_nat_INT_MAX | reflexivity].
Qed.

(** ** C7: enable and disable in equal numbers *)




(** ** C9: what the control surface reads back *)

(** C9, as the code has it.  A legal request code written through the
    control surface (within the bounds of the table) is applied like a
    direct request, and [_sched_set_boost] then overwrites the stored raw
    code with the aggregate kind it publishes: a later read returns that
    kind, the same value as the published active kind, and returns the
    written code only when that code is the kind now active. *)
Theorem read_returns_published_kind
    (table : ctl_table) (v buffer : Z) (g : globals) :
  legal v ->
  extra1 table <= v <= extra2 table ->
  let g' := exec (sched_boost_handler table true v) g in
  result (sched_boost_handler table true v) g = (0, v) /\
  g' = exec (sched_set_boost v) g /\
  sysctl_sched_boost g' = sched_boost_type g' /\
  sched_boost_type g' = aggregate (boost_refcount g') /\
  sched_boost_handler table false buffer g' =
    ((0, aggregate (boost_refcount g')), g', []).
Proof.
  intros Hv Hb g'.
  assert (E : g' = exec (sched_set_boost v) g)
    by (unfold g', exec at 1; now rewrite handler_write).
  destruct (step_published v g Hv) as (Hk & Hs & _). rewrite <- E in Hk, Hs.
  split; [unfold result; now rewrite handler_write | ].
  split; [exact E | ]. split; [congruence | ]. split; [exact Hk | ].
  rewrite handler_read, Hs. rewrite to_int_small; [reflexivity | ].
  pose proof (aggregate_range (boost_refcount g')).
  unfold in_int, INT_MIN, INT_MAX. lia.
Qed.

Lemma read_returns_published_kind_witness :
  let table := mk_ctl_table (-3) 3 in
  let g := run [1] (boot None 1 2) in
  let g' := exec (sched_boost_handler table true 2) g in
  result (sched_boost_handler table true 2) g = (0, 2) /\
  g' = exec (sched_set_boost 2) g /\
  sysctl_sched_boost g' = sched_boost_type g' /\
  sched_boost_type g' = aggregate (boost_refcount g') /\
  sched_boost_handler table false 0 g' =
    ((0, aggregate (boost_refcount g')), g', []).
Proof.
  cbv zeta.
  apply (read_returns_published_kind
           (mk_ctl_table (-3) 3) 2 0 (run [1] (boot None 1 2))).
  - reflexivity.
  - cbn. lia.
Defined.

(** C9 as stated fails: with FullThrottle active, writing the legal code
    [Restrained] succeeds, yet the stored value and a later read give
    [FullThrottle] (1), not the code written (3); the direct request
    leaves the same duplicate. *)
Lemma read_does_not_return_written_code :
  let table := mk_ctl_table (-3) 3 in
  let g := run [FULL_THROTTLE_BOOST] (boot None 0 0) in
  let g' := exec (sched_boost_handler table true RESTRAINED_BOOST) g in
  result (sched_boost_handler table true RESTRAINED_BOOST) g = (0, 3) /\
  sysctl_sched_boost g' = 1 /\
  result (sched_boost_handler table false 0) g' = (0, 1) /\
  sysctl_sched_boost (exec (sched_set_boost RESTRAINED_BOOST) g) = 1.
Proof. cbv zeta. repeat split. Qed.

(** ** Further properties of the unit *)

(** *** One trace event per request *)

Lemma boost_switch_calls_are_hooks (type : Z) (g : globals) :
  legal type -> hooks (boost_switch type) g = calls (boost_switch type) g.
Proof.
  intros H. destruct g as [sb st bp dt [r0 r1 r2 r3] mn mx].
  each_legal H; kern_cases; reflexivity.
Qed.

(** X1.  A legal request makes its hook calls first and then exactly one
    [trace_sched_set_boost] call, which carries the kind the request
    publishes; it never reaches [WARN_ON]. *)
Theorem one_trace_per_request (type : Z) (g : globals) :
  legal type ->
  calls (sched_set_boost type) g =
    hooks (sched_set_boost type) g
      ++ [trace_sched_set_boost
            (sched_boost_type (exec (sched_set_boost type) g))] /\
  ~ In WARN_ON (calls (sched_set_boost type) g).
Proof.
  intros H.
  assert (E : calls (sched_set_boost type) g =
              hooks (sched_set_boost type) g
                ++ [trace_sched_set_boost
                      (sched_boost_type (exec (sched_set_boost type) g))]).
  { destruct (step_published type g H) as (-> & _).
    rewrite hooks_step, boost_switch_calls_are_hooks by assumption.
    unfold calls at 1. rewrite sched_set_boost_legal by assumption.
    cbn [snd]. now rewrite step_refcount. }
  split; [exact E | ]. rewrite E. intros Hin.
  apply in_app_or in Hin as [Hin | [Hin | []]]; [ | discriminate Hin].
  unfold hooks in Hin. apply filter_In in Hin as [_ Hin]. discriminate Hin.
Qed.

Lemma one_trace_per_request_witness :
  calls (sched_set_boost 1) (boot None 1 2) =
    hooks (sched_set_boost 1) (boot None 1 2)
      ++ [trace_sched_set_boost
            (sched_boost_type (exec (sched_set_boost 1) (boot None 1 2)))] /\
  ~ In WARN_ON (calls (sched_set_boost 1) (boot None 1 2)).
Proof.
  apply (one_trace_per_request 1 (boot None 1 2)). reflexivity.
Defined.

(** *** Hooks fire on refcount edges only *)

Lemma to_int_succ_is_1 (r : Z) : in_int r -> to_int (r + 1) = 1 -> r = 0.
Proof.
  unfold in_int, INT_MIN, INT_MAX. intros H E.
  destruct (Z.eq_dec r 2147483647) as [-> | Hne].
  - discriminate E.
  - rewrite to_int_small in E by (unfold in_int, INT_MIN, INT_MAX; lia). lia.
Qed.

Lemma to_int_pred_is_0 (r : Z) : 1 <= r <= INT_MAX -> to_int (r - 1) = 0 -> r = 1.
Proof.
  unfold INT_MAX. intros H E.
  rewrite to_int_small in E by (unfold in_int, INT_MIN, INT_MAX; lia). lia.
Qed.

(** An enable of a kind whose refcount is not 0 fires nothing. *)
Lemma enable_off_edge (kind : Z) (g : globals) :
  In kind kinds ->
  in_int (get (boost_refcount g) kind) ->
  get (boost_refcount g) kind <> 0 ->
  hooks (boost_switch kind) g = [].
Proof.
  intros Hk Hint Hne. destruct g as [sb st bp dt [r0 r1 r2 r3] mn mx].
  cbn in Hint, Hne.
  each_kind Hk; cbn in Hint, Hne; kern_cases; try reflexivity;
    exfalso; apply Hne; now apply to_int_succ_is_1.
Qed.

(** A disable of a kind whose refcount is not 1 fires nothing. *)
Lemma disable_off_edge (kind : Z) (g : globals) :
  In kind kinds ->
  get (boost_refcount g) kind <= INT_MAX ->
  get (boost_refcount g) kind <> 1 ->
  hooks (boost_switch (matching_disable kind)) g = [].
Proof.
  intros Hk Hint Hne. destruct g as [sb st bp dt [r0 r1 r2 r3] mn mx].
  cbn in Hint, Hne.
  each_kind Hk; cbn in Hint, Hne; cbv [matching_disable]; kern_cases;
    try reflexivity;
    exfalso; apply Hne; apply to_int_pred_is_0; (assumption || lia).
Qed.

(** X2.  A request that leaves every kind on the same side of zero (held
    before and after, or not held before and after) fires no hook: hooks
    fire only when some refcount crosses between 0 and 1. *)
Theorem hooks_only_on_edges (type : Z) (g : globals) :
  legal type ->
  int_table (boost_refcount g) ->
  (forall kind, In kind kinds ->
     (0 <? get (boost_refcount (exec (sched_set_boost type) g)) kind) =
     (0 <? get (boost_refcount g) kind)) ->
  hooks (sched_set_boost type) g = [].
Proof.
  intros Hl (I1 & I2 & I3) Hsame.
  rewrite hooks_step by assumption.
  assert (K1 : In 1 kinds) by (cbv; auto).
  assert (K2 : In 2 kinds) by (cbv; auto).
  assert (K3 : In 3 kinds) by (cbv; auto).
  assert (En : forall kind, In kind kinds ->
             in_int (get (boost_refcount g) kind) ->
             (0 <? get (boost_refcount (exec (sched_set_boost kind) g)) kind) =
             (0 <? get (boost_refcount g) kind) ->
             hooks (boost_switch kind) g = []).
  { intros kind Hk Hi E. apply enable_off_edge; try assumption.
    intros H0. rewrite step_refcount in E by now apply kind_legal.
    rewrite enable_refcount, get_set_same, H0 in E by assumption.
    discriminate E. }
  assert (Dis : forall kind, In kind kinds ->
             in_int (get (boost_refcount g) kind) ->
             (0 <? get (boost_refcount
                          (exec (sched_set_boost (matching_disable kind)) g)) kind) =
             (0 <? get (boost_refcount g) kind) ->
             hooks (boost_switch (matching_disable kind)) g = []).
  { intros kind Hk Hi E. apply disable_off_edge; try assumption.
    - unfold in_int in Hi. lia.
    - intros H1. rewrite step_refcount in E by now apply matching_disable_legal.
      rewrite disable_refcount, H1, Z.leb_refl in E by assumption.
      rewrite get_set_same in E by assumption. discriminate E. }
  each_legal Hl.
  - apply (Dis 3); auto.
  - apply (Dis 2); auto.
  - apply (Dis 1); auto.
  - rewrite clear_hooks. unfold clear_all_hooks.
    assert (Z : forall kind, In kind kinds ->
                (0 <? get (boost_refcount g) kind) = false).
    { intros kind Hk. rewrite <- Hsame by assumption.
      rewrite clear_slot by assumption.
      pose proof (cleared_nonpositive (get (boost_refcount g) kind)).
      apply Z.ltb_ge. assumption. }
    rewrite (Z FULL_THROTTLE_BOOST), (Z CONSERVATIVE_BOOST),
      (Z RESTRAINED_BOOST) by (cbv; auto).
    reflexivity.
  - apply (En 1); auto.
  - apply (En 2); auto.
  - apply (En 3); auto.
Qed.

Lemma hooks_only_on_edges_witness :
  hooks (sched_set_boost 1) (run [1; 3] (boot None 1 2)) = [].
Proof.
  apply (hooks_only_on_edges 1 (run [1; 3] (boot None 1 2))).
  - reflexivity.
  - vm_compute. repeat split; discriminate.
  - intros kind Hk. each_kind Hk; reflexivity.
Defined.

(** *** The downstream state mirrors the refcount table *)

Ltac case_ltb :=
  match goal with
  | |- context [?a <? ?b] => destruct (Z.ltb_spec a b); cbn
  end.

Lemma deliver_all_app (l1 l2 : list call) (d : downstream) :
  deliver_all (l1 ++ l2) d = deliver_all l2 (deliver_all l1 d).
Proof. apply fold_left_app. Qed.

Lemma switch_mirror (type : Z) (g : globals) (n : Z) :
  legal type ->
  0 <= n < INT_MAX ->
  bounded n (boost_refcount g) ->
  deliver_all (calls (boost_switch type) g) (mirror (boost_refcount g)) =
  mirror (boost_refcount (exec (boost_switch type) g)).
Proof.
  intros E Hn Hb.
  destruct g as [sb st bp dt [r0 r1 r2 r3] mn mx].
  unfold bounded, INT_MAX in *. cbn in Hb.
  assert (T : forall r, 0 <= r <= n ->
              to_int (r + 1) = r + 1 /\ to_int (r - 1) = r - 1).
  { intros r Hr. split; apply to_int_small;
      unfold in_int, INT_MIN, INT_MAX; lia. }
  destruct (T r1) as [I1 D1]; [lia | ].
  destruct (T r2) as [I2 D2]; [lia | ].
  destruct (T r3) as [I3 D3]; [lia | ].
  unfold deliver_all, mirror.
  each_legal E; kern_cases; repeat case_ltb;
    reflexivity || (exfalso; lia).
Qed.

Lemma step_mirror (type : Z) (g : globals) (n : Z) :
  0 <= n < INT_MAX ->
  bounded n (boost_refcount g) ->
  deliver_all (calls (sched_set_boost type) g) (mirror (boost_refcount g)) =
  mirror (boost_refcount (exec (sched_set_boost type) g)).
Proof.
  intros Hn Hb. destruct (verify_boost_params type) eqn:E.
  - rewrite step_refcount by assumption.
    unfold calls at 1. rewrite sched_set_boost_legal by assumption.
    cbn [snd]. rewrite deliver_all_app.
    rewrite (switch_mirror type g n) by assumption. reflexivity.
  - unfold calls, exec. rewrite sched_set_boost_illegal by assumption.
    reflexivity.
Qed.

Lemma run_mirror (reqs : list Z) (g : globals) (n : Z) :
  0 <= n ->
  n + Z.of_nat (length reqs) <= INT_MAX ->
  bounded n (boost_refcount g) ->
  deliver_all (run_calls reqs g) (mirror (boost_refcount g)) =
  mirror (boost_refcount (run reqs g)).
Proof.
  revert g n. induction reqs as [ | t reqs IH]; intros g n Hn Hmax Hb.
  - reflexivity.
  - cbn [run run_calls]. cbn [length] in Hmax.
    rewrite deliver_all_app, (step_mirror t g n) by (assumption || lia).
    apply (IH _ (n + 1)); [lia | lia | ].
    apply step_bounded; [lia | assumption].
Qed.

(** X3.  From boot, over any sequence of at most [INT_MAX] requests, what
    the downstream subsystems were last told agrees with the refcount table:
    core-control boost is on exactly while FullThrottle is held, frequency
    aggregation is on exactly while FullThrottle or Restrained is held, and
    the cgroup boost settings are in their updated form exactly while
    Conservative is held and FullThrottle is not. *)
Theorem downstream_mirrors_table sn min_eff max_eff (reqs : list Z) :
  Z.of_nat (length reqs) <= INT_MAX ->
  deliver_all (run_calls reqs (boot sn min_eff max_eff))
    (mk_downstream false false false) =
  mirror (boost_refcount (run reqs (boot sn min_eff max_eff))).
Proof.
  intros Hlen.
  rewrite <- (run_mirror reqs (boot sn min_eff max_eff) 0).
  - now rewrite boot_refcount.
  - lia.
  - lia.
  - rewrite boot_refcount. unfold bounded. cbn. lia.
Qed.

Lemma downstream_mirrors_table_witness :
  deliver_all (run_calls [3; 1; 2; -1; 0] (boot None 1 2))
    (mk_downstream false false false) =
  mirror (boost_refcount (run [3; 1; 2; -1; 0] (boot None 1 2))).
Proof.
  apply (downstream_mirrors_table None 1 2 [3; 1; 2; -1; 0]).
  vm_compute. discriminate.
Defined.

(** *** Overlapping requests of one kind *)

Lemma run_hooks_app (l1 l2 : list Z) (g : globals) :
  run_hooks (l1 ++ l2) g = run_hooks l1 g ++ run_hooks l2 (run l1 g).
Proof.
  revert g. induction l1 as [ | t l1 IH]; intros g; cbn [app run_hooks run].
  - reflexivity.
  - now rewrite IH.
Qed.

Lemma enable_slot (kind : Z) (g : globals) :
  In kind kinds ->
  get (boost_refcount g) kind < INT_MAX ->
  INT_MIN <= get (boost_refcount g) kind ->
  get (boost_refcount (exec (sched_set_boost kind) g)) kind =
  get (boost_refcount g) kind + 1.
Proof.
  intros Hk Hmax Hmin. rewrite step_refcount by now apply kind_legal.
  rewrite enable_refcount, get_set_same by assumption.
  apply to_int_small. unfold in_int, INT_MIN, INT_MAX in *. lia.
Qed.

Lemma disable_slot (kind : Z) (g : globals) :
  In kind kinds ->
  1 <= get (boost_refcount g) kind <= INT_MAX ->
  get (boost_refcount (exec (sched_set_boost (matching_disable kind)) g)) kind =
  get (boost_refcount g) kind - 1.
Proof.
  intros Hk H. rewrite step_refcount by now apply matching_disable_legal.
  rewrite disable_refcount by assumption.
  destruct (Z.leb_spec 1 (get (boost_refcount g) kind)); [ | lia].
  rewrite get_set_same by assumption.
  apply to_int_small. unfold in_int, INT_MIN, INT_MAX in *. lia.
Qed.

(** Further enables of a kind already held fire nothing. *)
Lemma held_enables_silent (n : nat) (kind : Z) (g : globals) :
  In kind kinds ->
  1 <= get (boost_refcount g) kind ->
  get (boost_refcount g) kind + Z.of_nat n <= INT_MAX ->
  concat (run_hooks (repeat kind n) g) = [].
Proof.
  intros Hk. revert g. induction n as [ | n IH]; intros g H1 Hmax.
  - reflexivity.
  - cbn [repeat run_hooks concat].
    rewrite hooks_step by now apply kind_legal.
    rewrite enable_off_edge; try assumption;
      [ | unfold in_int, INT_MIN, INT_MAX in *; lia | lia].
    cbn [app]. apply IH; rewrite enable_slot; try assumption;
      unfold INT_MIN, INT_MAX in *; lia.
Qed.

(** Of [n + 1] disables of a kind held [n + 1] times, only the last can
    fire. *)
Lemma counted_disables_fire_last (n : nat) (kind : Z) (g : globals) :
  In kind kinds ->
  get (boost_refcount g) kind = Z.of_nat (S n) ->
  Z.of_nat (S n) <= INT_MAX ->
  concat (run_hooks (repeat (matching_disable kind) (S n)) g) =
  hooks (sched_set_boost (matching_disable kind))
    (run (repeat (matching_disable kind) n) g).
Proof.
  intros Hk. revert g. induction n as [ | n IH]; intros g Hrc Hmax.
  - cbn [repeat run_hooks concat run]. apply app_nil_r.
  - change (repeat (matching_disable kind) (S (S n)))
      with (matching_disable kind :: repeat (matching_disable kind) (S n)).
    cbn [run_hooks concat].
    change (run (repeat (matching_disable kind) (S n)) g)
      with (run (repeat (matching_disable kind) n)
              (exec (sched_set_boost (matching_disable kind)) g)).
    rewrite hooks_step by now apply matching_disable_legal.
    rewrite disable_off_edge; try assumption; [ | lia | lia].
    cbn [app]. apply IH; [ | lia].
    rewrite disable_slot by (assumption || lia). lia.
Qed.

(** X4.  [N >= 1] overlapping enables of a kind that was not held, followed
    by [N] matching disables, cost one set of entry hooks and one set of
    exit hooks: all hooks of the [2N] requests are those of the first enable
    followed by those of the last disable. *)
Theorem overlapping_requests_fire_once (n : nat) (kind : Z) (g : globals) :
  In kind kinds ->
  get (boost_refcount g) kind = 0 ->
  Z.of_nat (S n) <= INT_MAX ->
  concat (run_hooks (repeat kind (S n) ++ repeat (matching_disable kind) (S n)) g)
  = hooks (sched_set_boost kind) g
    ++ hooks (sched_set_boost (matching_disable kind))
         (run (repeat kind (S n) ++ repeat (matching_disable kind) n) g).
Proof.
  intros Hk H0 Hmax.
  assert (Hrc : get (boost_refcount (run (repeat kind (S n)) g)) kind =
                Z.of_nat (S n)).
  { rewrite enable_n, get_set_same by (assumption || lia). lia. }
  rewrite run_hooks_app, concat_app, run_app.
  rewrite counted_disables_fire_last by assumption.
  f_equal. cbn [repeat run_hooks concat].
  rewrite held_enables_silent; try assumption.
  - apply app_nil_r.
  - rewrite enable_slot by (assumption || unfold INT_MIN, INT_MAX in *; lia). lia.
  - rewrite enable_slot by (assumption || unfold INT_MIN, INT_MAX in *; lia). lia.
Qed.

Lemma overlapping_requests_fire_once_witness :
  concat (run_hooks (repeat 2 3 ++ repeat (matching_disable 2) 3)
            (boot None 1 2))
  = hooks (sched_set_boost 2) (boot None 1 2)
    ++ hooks (sched_set_boost (matching_disable 2))
         (run (repeat 2 3 ++ repeat (matching_disable 2) 2) (boot None 1 2)).
Proof.
  apply (overlapping_requests_fire_once 2 2 (boot None 1 2)).
  - right. left. reflexivity.
  - reflexivity.
  - vm_compute. discriminate.
Defined.

(** *** Redundant disables *)

Lemma calls_step (type : Z) (g : globals) :
  legal type ->
  calls (sched_set_boost type) g =
  hooks (boost_switch type) g
    ++ [trace_sched_set_boost
          (aggregate (boost_refcount (exec (boost_switch type) g)))].
Proof.
  intros H. unfold calls at 1. rewrite sched_set_boost_legal by assumption.
  cbn [snd]. now rewrite boost_switch_calls_are_hooks.
Qed.

(** X5.  In a published state, a disable of a kind that is not held
    (refcount below 1) changes no variable at all and fires no hook; the
    only call is the trace event, carrying the kind already active. *)
Theorem redundant_disable_is_noop (kind : Z) (g : globals) :
  In kind kinds ->
  get (boost_refcount g) kind < 1 ->
  published g ->
  exec (sched_set_boost (matching_disable kind)) g = g /\
  hooks (sched_set_boost (matching_disable kind)) g = [] /\
  calls (sched_set_boost (matching_disable kind)) g =
    [trace_sched_set_boost (sched_boost_type g)].
Proof.
  intros Hk Hlt Hp.
  pose proof (matching_disable_legal kind Hk) as Hl.
  assert (Hrc : boost_refcount (exec (sched_set_boost (matching_disable kind)) g)
                = boost_refcount g).
  { rewrite step_refcount, disable_refcount by assumption.
    destruct (Z.leb_spec 1 (get (boost_refcount g) kind)); [lia | reflexivity]. }
  assert (Hg : exec (sched_set_boost (matching_disable kind)) g = g).
  { destruct (step_env (matching_disable kind) g) as (Hdt & Hmn & Hmx).
    apply published_ext; try assumption. now apply step_published. }
  assert (Hh : hooks (sched_set_boost (matching_disable kind)) g = []).
  { rewrite hooks_step by assumption.
    apply disable_off_edge; [assumption | unfold INT_MAX; lia | lia]. }
  split; [exact Hg | ]. split; [exact Hh | ].
  rewrite calls_step, <- hooks_step, Hh by assumption.
  rewrite <- step_refcount, Hrc by assumption.
  destruct Hp as (<- & _). reflexivity.
Qed.

Lemma redundant_disable_is_noop_witness :
  let g := run [1] (boot None 1 2) in
  exec (sched_set_boost (matching_disable 3)) g = g /\
  hooks (sched_set_boost (matching_disable 3)) g = [] /\
  calls (sched_set_boost (matching_disable 3)) g =
    [trace_sched_set_boost (sched_boost_type g)].
Proof.
  cbv zeta. apply (redundant_disable_is_noop 3 (run [1] (boot None 1 2))).
  - right. right. left. reflexivity.
  - reflexivity.
  - repeat split.
Defined.

(** *** Requests of another kind *)

Lemma get_set_other (a : refcount_array) (kind kind' v : Z) :
  In kind kinds -> In kind' kinds -> kind <> kind' ->
  get (set a kind v) kind' = get a kind'.
Proof.
  intros Hk Hk' Hne. each_kind Hk; each_kind Hk'; congruence || reflexivity.
Qed.

(** X6.  An enable or a disable of one kind never changes the refcount of
    another kind, in any state. *)
Theorem other_refcounts_untouched (kind kind' : Z) (g : globals) :
  In kind kinds -> In kind' kinds -> kind <> kind' ->
  get (boost_refcount (exec (sched_set_boost kind) g)) kind' =
    get (boost_refcount g) kind' /\
  get (boost_refcount (exec (sched_set_boost (matching_disable kind)) g)) kind' =
    get (boost_refcount g) kind'.
Proof.
  intros Hk Hk' Hne. split.
  - rewrite step_refcount by now apply kind_legal.
    rewrite enable_refcount by assumption. now apply get_set_other.
  - rewrite step_refcount by now apply matching_disable_legal.
    rewrite disable_refcount by assumption.
    destruct (1 <=? get (boost_refcount g) kind); [ | reflexivity].
    now apply get_set_other.
Qed.

Lemma other_refcounts_untouched_witness :
  let g := run [3; 3; 1] (boot None 1 2) in
  get (boost_refcount (exec (sched_set_boost 1) g)) 3 = get (boost_refcount g) 3 /\
  get (boost_refcount (exec (sched_set_boost (matching_disable 1)) g)) 3 =
    get (boost_refcount g) 3.
Proof.
  cbv zeta. apply (other_refcounts_untouched 1 3 (run [3; 3; 1] (boot None 1 2))).
  - left. reflexivity.
  - right. right. left. reflexivity.
  - discriminate.
Defined.

(** X7.  While FullThrottle is held, an enable or a disable of Conservative
    or Restrained leaves FullThrottle the published kind; none of them
    fires a hook, except that a disable of Conservative may fire
    [restore_cgroup_boost_settings]. *)
Theorem full_throttle_masks_other_kinds (type : Z) (g : globals) :
  1 <= get (boost_refcount g) FULL_THROTTLE_BOOST ->
  In type [CONSERVATIVE_BOOST; RESTRAINED_BOOST;
           CONSERVATIVE_BOOST_DISABLE; RESTRAINED_BOOST_DISABLE] ->
  sched_boost_type (exec (sched_set_boost type) g) = FULL_THROTTLE_BOOST /\
  (hooks (sched_set_boost type) g = [] \/
   type = CONSERVATIVE_BOOST_DISABLE /\
   hooks (sched_set_boost type) g = [restore_cgroup_boost_settings]).
Proof.
  intros Hft Ht.
  assert (Hl : legal type)
    by (repeat (destruct Ht as [<- | Ht]; [reflexivity | ]); destruct Ht).
  destruct (step_published type g Hl) as (-> & _).
  rewrite step_refcount, hooks_step by assumption.
  assert (Hslot : get (boost_refcount (exec (boost_switch type) g))
                    FULL_THROTTLE_BOOST =
                  get (boost_refcount g) FULL_THROTTLE_BOOST).
  { destruct g as [sb st bp dt [r0 r1 r2 r3] mn mx].
    destruct Ht as [<- | [<- | [<- | [<- | []]]]]; kern_cases; reflexivity. }
  split.
  - unfold aggregate. rewrite Hslot.
    destruct (Z.ltb_spec 0 (get (boost_refcount g) FULL_THROTTLE_BOOST));
      [reflexivity | lia].
  - clear Hslot. destruct g as [sb st bp dt [r0 r1 r2 r3] mn mx]. cbn in Hft.
    destruct Ht as [<- | [<- | [<- | [<- | []]]]]; kern_cases.
    all: try (exfalso; lia).
    all: try (left; reflexivity).
    all: right; split; reflexivity.
Qed.

Lemma full_throttle_masks_other_kinds_witness :
  let g := run [1] (boot None 1 2) in
  sched_boost_type (exec (sched_set_boost 3) g) = FULL_THROTTLE_BOOST /\
  (hooks (sched_set_boost 3) g = [] \/
   3 = CONSERVATIVE_BOOST_DISABLE /\
   hooks (sched_set_boost 3) g = [restore_cgroup_boost_settings]).
Proof.
  cbv zeta. apply (full_throttle_masks_other_kinds 3 (run [1] (boot None 1 2))).
  - vm_compute. discriminate.
  - right. left. reflexivity.
Defined.

(** *** What the handler refuses *)

(** A write the table admits but [verify_boost_params] refuses: the raw
    value stays stored and nothing else happens. *)
Lemma handler_write_illegal (table : ctl_table) (buffer : Z) (g : globals) :
  extra1 table <= buffer <= extra2 table ->
  in_int buffer ->
  verify_boost_params buffer = false ->
  sched_boost_handler table true buffer g =
  ((- EINVAL, buffer), exec (set_sysctl_sched_boost buffer) g, []).
Proof.
  intros Hb Hi Hv.
  unfold sched_boost_handler, proc_dointvec_minmax.
  replace ((extra1 table <=? buffer) && (buffer <=? extra2 table)) with true
    by (symmetry; apply andb_true_iff; split; apply Z.leb_le; lia).
  cbv [bind ret read].
  change (set_sysctl_sched_boost buffer g)
    with (tt, exec (set_sysctl_sched_boost buffer) g, @nil call).
  cbn [fst snd negb orb Z.eqb app].
  replace (sysctl_sched_boost (exec (set_sysctl_sched_boost buffer) g))
    with (to_uint buffer) by (destruct g; reflexivity).
  rewrite to_int_to_uint by assumption.
  now rewrite Hv.
Qed.

(** X8.  Unless it is a write of a legal request code that the table's
    bounds admit, a call of the handler makes no call into the kernel and
    leaves the refcount table, the active kind and the policy as they were;
    such a write returns [-EINVAL], and a read returns 0 with the stored
    value and changes nothing at all. *)
Theorem handler_acts_only_on_legal_writes
    (table : ctl_table) (write : bool) (buffer : Z) (g : globals) :
  in_int buffer ->
  ~ (write = true /\ extra1 table <= buffer <= extra2 table /\ legal buffer) ->
  let g' := exec (sched_boost_handler table write buffer) g in
  calls (sched_boost_handler table write buffer) g = [] /\
  boost_refcount g' = boost_refcount g /\
  sched_boost_type g' = sched_boost_type g /\
  boost_policy g' = boost_policy g /\
  (if write
   then fst (result (sched_boost_handler table write buffer) g) = - EINVAL
   else result (sched_boost_handler table write buffer) g =
          (0, to_int (sysctl_sched_boost g)) /\ g' = g).
Proof.
  intros Hi Hno g'. subst g'. destruct write.
  - destruct ((extra1 table <=? buffer) && (buffer <=? extra2 table)) eqn:E.
    + apply andb_true_iff in E as [E1 E2]. apply Z.leb_le in E1, E2.
      assert (Hv : verify_boost_params buffer = false).
      { destruct (verify_boost_params buffer) eqn:V; [ | reflexivity].
        exfalso. apply Hno. repeat split; assumption. }
      unfold calls, exec, result.
      rewrite handler_write_illegal by (assumption || lia).
      destruct g; repeat split.
    + unfold calls, exec, result, sched_boost_handler, proc_dointvec_minmax.
      rewrite E. repeat split.
  - repeat split.
Qed.

Lemma handler_acts_only_on_legal_writes_witness :
  let table := mk_ctl_table (-3) 3 in
  let g := run [1] (boot None 1 2) in
  let g' := exec (sched_boost_handler table true 7) g in
  calls (sched_boost_handler table true 7) g = [] /\
  boost_refcount g' = boost_refcount g /\
  sched_boost_type g' = sched_boost_type g /\
  boost_policy g' = boost_policy g /\
  fst (result (sched_boost_handler table true 7) g) = - EINVAL.
Proof.
  cbv zeta.
  apply (handler_acts_only_on_legal_writes
           (mk_ctl_table (-3) 3) true 7 (run [1] (boot None 1 2))).
  - vm_compute. split; discriminate.
  - vm_compute. intros (_ & _ & H). discriminate H.
Defined.

(** X9.  A write of an integer that the table's bounds admit but that is
    not a legal request code is refused with [-EINVAL] after the integer
    has been stored: the control surface then reads back the refused
    integer, while the active kind is the one from before the write. *)
Theorem refused_write_stays_stored
    (table table' : ctl_table) (buffer buffer' : Z) (g : globals) :
  in_int buffer ->
  extra1 table <= buffer <= extra2 table ->
  ~ legal buffer ->
  let g' := exec (sched_boost_handler table true buffer) g in
  result (sched_boost_handler table true buffer) g = (- EINVAL, buffer) /\
  sysctl_sched_boost g' = to_uint buffer /\
  result (sched_boost_handler table' false buffer') g' = (0, buffer) /\
  sched_boost_type g' = sched_boost_type g.
Proof.
  intros Hi Hb Hno g'. subst g'.
  assert (Hv : verify_boost_params buffer = false).
  { destruct (verify_boost_params buffer) eqn:V; [ | reflexivity].
    exfalso. now apply Hno. }
  unfold exec, result. rewrite handler_write_illegal by assumption.
  cbn [fst snd]. rewrite handler_read.
  destruct g; cbn. rewrite to_int_to_uint by assumption.
  repeat split.
Qed.

Lemma refused_write_stays_stored_witness :
  let table := mk_ctl_table (-10) 10 in
  let g := run [1] (boot None 1 2) in
  let g' := exec (sched_boost_handler table true 7) g in
  result (sched_boost_handler table true 7) g = (- EINVAL, 7) /\
  sysctl_sched_boost g' = to_uint 7 /\
  result (sched_boost_handler table false 0) g' = (0, 7) /\
  sched_boost_type g' = sched_boost_type g.
Proof.
  cbv zeta.
  apply (refused_write_stays_stored
           (mk_ctl_table (-10) 10) (mk_ctl_table (-10) 10) 7 0
           (run [1] (boot None 1 2))).
  - vm_compute. split; discriminate.
  - vm_compute. split; discriminate.
  - vm_compute. discriminate.
Defined.

(** *** The policy a boot configuration leads to *)

Lemma boot_derive_policy sn min_eff max_eff (kind : Z) :
  derive_policy kind (override (boot sn min_eff max_eff))
    (heterogeneous (boot sn min_eff max_eff)) =
  if (kind =? NO_BOOST) || (kind =? RESTRAINED_BOOST)
  then SCHED_BOOST_NONE else boot_policy sn min_eff max_eff.
Proof.
  unfold derive_policy, heterogeneous, boot, boot_policy, sched_boost_parse_dt.
  destruct ((kind =? NO_BOOST) || (kind =? RESTRAINED_BOOST));
    [reflexivity | ].
  destruct sn as [[policy | ] | ];
    try (cbn; destruct (min_eff =? max_eff); reflexivity).
  destruct (String.eqb policy "boost-on-big"); [reflexivity | ].
  destruct (String.eqb policy "boost-on-all"); [reflexivity | ].
  cbn. destruct (min_eff =? max_eff); reflexivity.
Qed.

(** X10.  Whatever requests follow boot, the published policy is [None]
    while the active kind is [None] or [Restrained], and otherwise always
    the one policy the boot configuration fixes: [OnBig] for a device tree
    saying "boost-on-big", [OnAll] for "boost-on-all", and for a missing
    node, a missing property or any other string the capacity rule ([OnBig]
    when the minimum and maximum capacity differ, else [OnAll]). *)
Theorem policy_fixed_at_boot sn min_eff max_eff (reqs : list Z) :
  let g := run reqs (boot sn min_eff max_eff) in
  boost_policy g =
  if (sched_boost_type g =? NO_BOOST) || (sched_boost_type g =? RESTRAINED_BOOST)
  then SCHED_BOOST_NONE else boot_policy sn min_eff max_eff.
Proof.
  intros g.
  assert (Hp : published g)
    by (apply run_keeps_published, boot_published).
  destruct Hp as (Hk & _ & Hpol). rewrite Hpol, Hk.
  rewrite <- boot_derive_policy.
  destruct (run_env reqs (boot sn min_eff max_eff)) as (Hdt & Hmn & Hmx).
  unfold override, heterogeneous. fold g in Hdt, Hmn, Hmx.
  now rewrite Hdt, Hmn, Hmx.
Qed.
